(** * Character chat system (Main2.py): a shallow embedding and its properties

    The Python module keeps two tables ([character], [conversation]) behind
    SQLAlchemy, calls an external text generator over HTTP, an external
    speech recogniser, and is driven by UI handlers.  The embedding below
    follows the module function by function.  Everything the module does not
    decide itself (configuration, randomness, the clock, the HTTP service, the
    speech service, failures of the database) is an oracle of the record
    [Env]; everything it changes (tables, the SQLAlchemy session, what it
    logged, sent or called) is the record [World].  Python code that may raise
    is a computation in the state-and-exception monad [M]. *)

From Stdlib Require Import ZArith NArith List String Ascii Bool Lia.
From Stdlib Require Import Permutation Sorted DecimalString.
From Stdlib Require DecimalPos.
Import ListNotations.
Local Open Scope string_scope.
Local Open Scope Z_scope.

Set Implicit Arguments.
Set Warnings "-register-all".

(** ** Python strings *)

Module Py.

(** The one-character string holding a line feed (Python's [\n]). *)
Definition nl : string := String (ascii_of_nat 10) EmptyString.

(** [sep.join(parts)]. *)
Fixpoint join (sep : string) (parts : list string) : string :=
  match parts with
  | [] => EmptyString
  | [p] => p
  | p :: rest => p ++ sep ++ join sep rest
  end.

(** Truth value of a [str]: the empty string is false. *)
Definition truthy_str (s : string) : bool :=
  match s with EmptyString => false | _ => true end.

(** Truth value of a [str] or [None]. *)
Definition truthy_opt_str (o : option string) : bool :=
  match o with Some s => truthy_str s | None => false end.

(** Truth value of an [int] or [None]. *)
Definition truthy_opt_int (o : option Z) : bool :=
  match o with Some n => negb (n =? 0) | None => false end.

(** [f"{n}"] for an [int]. *)
Definition str_of_int (n : Z) : string := NilZero.string_of_int (Z.to_int n).

(** [f"{x}"] for a value that is a [str] or [None]. *)
Definition str_of_opt (o : option string) : string :=
  match o with Some s => s | None => "None" end.

(** [c.isspace()] on the ASCII range: tab, line feed, vertical tab, form
    feed, carriage return, the four separators 28..31 and the space. *)
Definition isspace (c : ascii) : bool :=
  let n := nat_of_ascii c in
  (((9 <=? n) && (n <=? 13)) || ((28 <=? n) && (n <=? 32)))%nat.

Fixpoint lstrip (s : string) : string :=
  match s with
  | String c s' => if isspace c then lstrip s' else s
  | EmptyString => EmptyString
  end.

(** [s.rstrip()]: a character is dropped when it is a space and everything
    after it has been dropped. *)
Fixpoint rstrip (s : string) : string :=
  match s with
  | EmptyString => EmptyString
  | String c s' =>
      match rstrip s' with
      | EmptyString => if isspace c then EmptyString else String c EmptyString
      | r => String c r
      end
  end.

(** [s.strip()]. *)
Definition strip (s : string) : string := rstrip (lstrip s).

Definition digit_of (c : ascii) : option Z :=
  let n := nat_of_ascii c in
  if ((48 <=? n) && (n <=? 57))%nat then Some (Z.of_nat n - 48) else None.

(** The digits of a decimal literal; one underscore may stand between two
    digits.  [seen] says that the previous character was a digit. *)
Fixpoint digits (s : string) (acc : Z) (seen : bool) : option Z :=
  match s with
  | EmptyString => if seen then Some acc else None
  | String c s' =>
      match digit_of c with
      | Some d => digits s' (10 * acc + d) true
      | None =>
          if (Ascii.eqb c "_" && seen)%bool then digits s' acc false else None
      end
  end.

(** [int(s)] for a [str] of ASCII characters: surrounding white space is
    ignored, a sign may come first.  [None] stands for [ValueError]. *)
Definition int (s : string) : option Z :=
  match strip s with
  | String "-" s' => option_map Z.opp (digits s' 0 false)
  | String "+" s' => digits s' 0 false
  | s' => digits s' 0 false
  end.

End Py.

(** ** Exceptions and results *)

(** The exception classes the module distinguishes or can meet.  Every other
    class is [Other], with the name of the class. *)
Inductive exn_class :=
| ValueError
| TypeError
| KeyError
| IndexError
| UnknownValueError
| RequestError
| IntegrityError
| Other (name : string).

(** An exception: its class and [str(e)]. *)
Record exn := Exn { class_of : exn_class; str : string }.

Inductive result (A : Type) :=
| Ok (a : A)
| Raise (e : exn).
Arguments Raise {A} e.

(** ** JSON values as Python objects

    [response.json()] yields [None], [bool], [int], [str], [list] and [dict]
    objects (floating point numbers are left out).  A [dict] is the list of its
    items, every key once. *)
Inductive json :=
| JNull
| JBool (b : bool)
| JInt (n : Z)
| JStr (s : string)
| JArr (items : list json)
| JObj (fields : list (string * json)).

Module Json.

(** Truth value of an object. *)
Definition truthy (v : json) : bool :=
  match v with
  | JNull => false
  | JBool b => b
  | JInt n => negb (n =? 0)
  | JStr s => Py.truthy_str s
  | JArr items => match items with [] => false | _ => true end
  | JObj fields => match fields with [] => false | _ => true end
  end.

Definition type_name (v : json) : string :=
  match v with
  | JNull => "NoneType"
  | JBool _ => "bool"
  | JInt _ => "int"
  | JStr _ => "str"
  | JArr _ => "list"
  | JObj _ => "dict"
  end.

Fixpoint lookup (k : string) (fields : list (string * json)) : option json :=
  match fields with
  | [] => None
  | (k', v) :: rest => if String.eqb k k' then Some v else lookup k rest
  end.

Definition not_subscriptable (v : json) : exn :=
  Exn TypeError ("'" ++ type_name v ++ "' object is not subscriptable").

(** [v[k]] for a string [k]. *)
Definition getitem (v : json) (k : string) : result json :=
  match v with
  | JObj fields =>
      match lookup k fields with
      | Some x => Ok x
      | None => Raise (Exn KeyError ("'" ++ k ++ "'"))
      end
  | JArr _ => Raise (Exn TypeError "list indices must be integers or slices, not str")
  | JStr _ => Raise (Exn TypeError "string indices must be integers, not 'str'")
  | _ => Raise (not_subscriptable v)
  end.

(** [v[0]].  The keys of a [dict] read from JSON are strings, so [0] is
    never one of them. *)
Definition getitem0 (v : json) : result json :=
  match v with
  | JArr (x :: _) => Ok x
  | JArr [] => Raise (Exn IndexError "list index out of range")
  | JStr (String c _) => Ok (JStr (String c EmptyString))
  | JStr EmptyString => Raise (Exn IndexError "string index out of range")
  | JObj _ => Raise (Exn KeyError "0")
  | _ => Raise (not_subscriptable v)
  end.

Definition is_str (k : string) (v : json) : bool :=
  match v with JStr s => String.eqb s k | _ => false end.

(** [k in v] for a string [k]: a key of a [dict], an element of a [list],
    a substring of a [str]. *)
Definition contains (k : string) (v : json) : result bool :=
  match v with
  | JObj fields => Ok (match lookup k fields with Some _ => true | None => false end)
  | JArr items => Ok (existsb (is_str k) items)
  | JStr s => Ok (match index 0 k s with Some _ => true | None => false end)
  | _ => Raise (Exn TypeError ("argument of type '" ++ type_name v ++ "' is not iterable"))
  end.

(** [f"{v}"] for a parsed body, as the error log prints it (quotes and
    backslashes inside strings are printed as they are). *)
Fixpoint repr (v : json) : string :=
  match v with
  | JNull => "None"
  | JBool true => "True"
  | JBool false => "False"
  | JInt n => Py.str_of_int n
  | JStr s => "'" ++ s ++ "'"
  | JArr items => "[" ++ Py.join ", " (map repr items) ++ "]"
  | JObj fields =>
      "{" ++ Py.join ", " (map (fun kv => "'" ++ fst kv ++ "': " ++ repr (snd kv)) fields) ++ "}"
  end.

End Json.

(** ** Session identifiers: [str(uuid.uuid4())] *)

Module Uuid.

Local Open Scope N_scope.

Definition hex_digit (d : N) : ascii :=
  if d <? 10 then ascii_of_N (48 + d) else ascii_of_N (87 + d).

(** ['%0<digits>x' % v] for [v] below [16 ^ digits]. *)
Fixpoint hex (digits : nat) (v : N) : string :=
  match digits with
  | O => EmptyString
  | S k => hex k (N.shiftr v 4) ++ String (hex_digit (N.land v 15)) EmptyString
  end.

(** [UUID(bytes=os.urandom(16), version=4).int]: the variant and version
    bits are forced on the 128 random bits. *)
Definition uuid4_int (random : N) : N :=
  let i := N.land random (N.ones 128) in
  let i := N.ldiff i (N.shiftl 0xc000 48) in
  let i := N.lor i (N.shiftl 0x8000 48) in
  let i := N.ldiff i (N.shiftl 0xf000 64) in
  N.lor i (N.shiftl 4 76).

(** [str(u)]: the 32 hexadecimal digits in groups of 8, 4, 4, 4 and 12. *)
Definition str_of (i : N) : string :=
  let h := hex 32 i in
  (substring 0 8 h ++ "-" ++ substring 8 4 h ++ "-" ++ substring 12 4 h ++ "-"
     ++ substring 16 4 h ++ "-" ++ substring 20 12 h)%string.

Definition uuid4 (random : N) : string := str_of (uuid4_int random).

End Uuid.

(** ** The data model *)

(** A row of the table [character]. *)
Module Character.
Record t := mk {
  id : Z;
  name : string;
  description : string;
  prompt_template : string
}.
End Character.

(** A row of the table [conversation]; [user_input] and [chat_id] are the
    nullable columns, [timestamp] is in ticks of the clock. *)
Module Conversation.
Record t := mk {
  id : Z;
  character_id : Z;
  user_input : option string;
  bot_response : string;
  timestamp : Z;
  chat_id : option string;
  user_id : Z
}.
End Conversation.

(** The answer of [requests.post]: [json] is what [response.json()] gives. *)
Module Response.
Record t := mk {
  status_code : Z;
  text : string;
  json : result json
}.
End Response.

(** The durable state: both tables in insertion order and the two sequences
    the primary keys are drawn from. *)
Record Database := {
  characters : list Character.t;
  conversations : list Conversation.t;
  character_id_seq : Z;
  conversation_id_seq : Z
}.

(** [db.session]: the rows added and not yet committed. *)
Record Session := {
  added_characters : list Character.t;
  added_conversations : list Conversation.t
}.

Definition empty_session : Session :=
  {| added_characters := []; added_conversations := [] |}.

Inductive level := INFO | ERROR.

(** What a run leaves behind besides the tables: log records, requests sent
    to the generator, and the entries into the three functions whose being
    called or not the properties speak of. *)
Inductive event :=
| Log (lvl : level) (msg : string)
| Post (url : string) (payload : json) (key : string)
| Enter_chat_with_character (character_name user_input : string) (user_id : Z)
    (chat_id : option string)
| Enter_speech_to_text (audio_file : string)
| Enter_extract_audio_from_video (video_file : string).

(** The state a computation runs in; [trace] has the latest event first. *)
Record World := {
  db : Database;
  session : Session;
  trace : list event
}.

(** The statements sent to the database. *)
Inductive db_op :=
| Select_character_by_name (name : string)
| Select_characters
| Select_conversations_by_user (user_id : Z)
| Commit (chars : list Character.t) (convs : list Conversation.t).

(** What the module does not decide.  [db_fault] tells for each statement
    whether the database raises on it (a lost connection, a constraint of the
    backend) and with what; [adapt_text] is what the driver binds to a [Text]
    column for a value that is neither a string nor [None]. *)
Record Env := {
  gemini_api_key : option string;
  urandom16 : N;
  utcnow : Z;
  requests_post : json -> result Response.t;
  record_audio : string -> option exn;
  recognize_google : string -> result string;
  write_audiofile : string -> option exn;
  db_fault : db_op -> option exn;
  adapt_text : json -> result string
}.

(** ** The monad of Python computations *)

Definition M (A : Type) : Type := World -> result A * World.

Definition ret {A} (a : A) : M A := fun w => (Ok a, w).

Definition raise {A} (e : exn) : M A := fun w => (Raise e, w).

Definition bind {A B} (m : M A) (k : A -> M B) : M B :=
  fun w =>
    match m w with
    | (Ok a, w') => k a w'
    | (Raise e, w') => (Raise e, w')
    end.

(** [try: m  except Exception as e: handler e]. *)
Definition try_except {A} (m : M A) (handler : exn -> M A) : M A :=
  fun w =>
    match m w with
    | (Ok a, w') => (Ok a, w')
    | (Raise e, w') => handler e w'
    end.

Definition lift {A} (r : result A) : M A := fun w => (r, w).

Definition check (o : option exn) : M unit :=
  match o with Some e => raise e | None => ret tt end.

Definition emit (e : event) : M unit :=
  fun w => (Ok tt, {| db := db w; session := session w; trace := e :: trace w |}).

Definition logger_info (msg : string) : M unit := emit (Log INFO msg).
Definition logger_error (msg : string) : M unit := emit (Log ERROR msg).

Declare Scope py_scope.
Delimit Scope py_scope with py.
Notation "x <- m ;; k" := (bind m (fun x => k))
  (at level 100, m at next level, right associativity) : py_scope.
Notation "m ;; k" := (bind m (fun _ => k))
  (at level 100, right associativity) : py_scope.
Local Open Scope py_scope.

(** ** The database layer *)

(** [with app_context(): body]: the body runs with a session of its own,
    which is removed when the context is left, whatever the outcome. *)
Definition app_context {A} (body : M A) : M A :=
  fun w =>
    let (r, w') := body {| db := db w; session := empty_session; trace := trace w |} in
    (r, {| db := db w'; session := session w; trace := trace w' |}).

(** The rows a query sees: the committed ones and those of the session. *)
Definition visible_characters (w : World) : list Character.t :=
  characters (db w) ++ added_characters (session w).

Definition visible_conversations (w : World) : list Conversation.t :=
  conversations (db w) ++ added_conversations (session w).

Definition has_name (name : string) (c : Character.t) : bool :=
  String.eqb (Character.name c) name.

Definition of_user (user_id : Z) (c : Conversation.t) : bool :=
  Conversation.user_id c =? user_id.

Fixpoint insert_by_timestamp (c : Conversation.t) (l : list Conversation.t)
  : list Conversation.t :=
  match l with
  | [] => [c]
  | x :: rest =>
      if Conversation.timestamp c <=? Conversation.timestamp x
      then c :: l
      else x :: insert_by_timestamp c rest
  end.

(** [ORDER BY timestamp]: rows with equal timestamps keep the order of the
    table. *)
Definition order_by_timestamp (l : list Conversation.t) : list Conversation.t :=
  fold_right insert_by_timestamp [] l.

Section Database.

Variable env : Env.

(** [Character.query.filter_by(name=name).first()]. *)
Definition Character_query_filter_by_name_first (name : string)
  : M (option Character.t) :=
  fun w =>
    match db_fault env (Select_character_by_name name) with
    | Some e => (Raise e, w)
    | None => (Ok (find (has_name name) (visible_characters w)), w)
    end.

(** [Character.query.all()]. *)
Definition Character_query_all : M (list Character.t) :=
  fun w =>
    match db_fault env Select_characters with
    | Some e => (Raise e, w)
    | None => (Ok (visible_characters w), w)
    end.

(** [Conversation.query.filter_by(user_id=user_id)
      .order_by(Conversation.timestamp).all()]. *)
Definition Conversation_query_filter_by_user_id_order_by_timestamp_all
  (user_id : Z) : M (list Conversation.t) :=
  fun w =>
    match db_fault env (Select_conversations_by_user user_id) with
    | Some e => (Raise e, w)
    | None =>
        (Ok (order_by_timestamp (filter (of_user user_id) (visible_conversations w))), w)
    end.

(** [db.session.add(Character(name=.., description=.., prompt_template=..))]:
    the row takes the next key of its sequence. *)
Definition db_session_add_character (name description prompt_template : string)
  : M unit :=
  fun w =>
    let d := db w in
    let row := Character.mk (character_id_seq d) name description prompt_template in
    (Ok tt,
     {| db := {| characters := characters d;
                 conversations := conversations d;
                 character_id_seq := character_id_seq d + 1;
                 conversation_id_seq := conversation_id_seq d |};
        session := {| added_characters := added_characters (session w) ++ [row];
                      added_conversations := added_conversations (session w) |};
        trace := trace w |}).

(** The value a [Text NOT NULL] column takes for a Python object. *)
Definition bind_text (v : json) : result string :=
  match v with
  | JStr s => Ok s
  | JNull => Raise (Exn IntegrityError "null value in column bot_response violates not-null constraint")
  | _ => adapt_text env v
  end.

(** [db.session.add(Conversation(character_id=.., user_input=..,
    bot_response=.., chat_id=.., user_id=..))]: the row takes the next key
    and the time of the clock ([default=datetime.utcnow]).  A value the
    column refuses is reported here, the flush being the next statement
    of every caller. *)
Definition db_session_add_conversation (character_id : Z) (user_input : string)
  (bot_response : json) (chat_id : string) (user_id : Z) : M unit :=
  fun w =>
    match bind_text bot_response with
    | Raise e => (Raise e, w)
    | Ok text =>
        let d := db w in
        let row := Conversation.mk (conversation_id_seq d) character_id (Some user_input)
                     text (utcnow env) (Some chat_id) user_id in
        (Ok tt,
         {| db := {| characters := characters d;
                     conversations := conversations d;
                     character_id_seq := character_id_seq d;
                     conversation_id_seq := conversation_id_seq d + 1 |};
            session := {| added_characters := added_characters (session w);
                          added_conversations := added_conversations (session w) ++ [row] |};
            trace := trace w |})
    end.

(** [db.session.commit()]: all the rows of the session reach the tables,
    or the database raises and none does. *)
Definition db_session_commit : M unit :=
  fun w =>
    let s := session w in
    match db_fault env (Commit (added_characters s) (added_conversations s)) with
    | Some e => (Raise e, w)
    | None =>
        let d := db w in
        (Ok tt,
         {| db := {| characters := characters d ++ added_characters s;
                     conversations := conversations d ++ added_conversations s;
                     character_id_seq := character_id_seq d;
                     conversation_id_seq := conversation_id_seq d |};
            session := empty_session;
            trace := trace w |})
    end.

(** [db.session.rollback()]. *)
Definition db_session_rollback : M unit :=
  fun w => (Ok tt, {| db := db w; session := empty_session; trace := trace w |}).

End Database.

(** ** The module's functions *)

Definition gemini_api_url : string :=
  "https://generativelanguage.googleapis.com/v1beta/models/gemini-2.0-flash:generateContent".

(** The [characters] list of [add_predefined_characters]: name, description
    and prompt template of each persona. *)
Definition predefined_characters : list (string * string * string) :=
  [ ("Chuck the Clown",
     "A funny clown who tells jokes and entertains.",
     "You are Chuck the Clown, always ready with a joke and entertainment. Be upbeat, silly, and include jokes in your responses.");
    ("Sarcastic Pirate",
     "A pirate with a sharp tongue and a love for treasure.",
     "You are a Sarcastic Pirate, ready to share your tales of adventure. Use pirate slang, be witty, sarcastic, and mention your love for treasure and the sea.");
    ("Professor Sage",
     "A wise professor knowledgeable about many subjects.",
     "You are Professor Sage, sharing wisdom and knowledge. Be scholarly, thoughtful, and provide educational information in your responses.") ].

(** [for x in l: body x]. *)
Fixpoint for_each {A} (l : list A) (body : A -> M unit) : M unit :=
  match l with
  | [] => ret tt
  | x :: rest => body x ;; for_each rest body
  end.

(** A displayed message, [{"role": .., "content": ..}]. *)
Record message := { role : string; content : json }.

(** [f"User: {conv.user_input}\nBot: {conv.bot_response}"]. *)
Definition turn_text (conv : Conversation.t) : string :=
  "User: " ++ Py.str_of_opt (Conversation.user_input conv) ++ Py.nl
    ++ "Bot: " ++ Conversation.bot_response conv.

(** [" ".join([... for conv in previous_conversations])]. *)
Definition context_prompt_of (previous_conversations : list Conversation.t) : string :=
  Py.join " " (map turn_text previous_conversations).

(** [f"{prompt_template}\n{context_prompt}\nUser: {user_input}\nBot:"]. *)
Definition full_prompt_of (prompt_template context_prompt user_input : string) : string :=
  prompt_template ++ Py.nl ++ context_prompt ++ Py.nl
    ++ "User: " ++ user_input ++ Py.nl ++ "Bot:".

(** [{"contents": [{"parts": [{"text": full_prompt}]}]}]. *)
Definition payload_of (full_prompt : string) : json :=
  JObj [("contents", JArr [JObj [("parts", JArr [JObj [("text", JStr full_prompt)]])]])].

Section Application.

Variable env : Env.

Definition add_predefined_characters : M unit :=
  app_context
    (for_each predefined_characters
       (fun char_data =>
          let '(name, description, prompt_template) := char_data in
          existing <- Character_query_filter_by_name_first env name ;;
          match existing with
          | None =>
              db_session_add_character name description prompt_template ;;
              logger_info ("Adding predefined character: " ++ name)
          | Some _ => ret tt
          end) ;;
     try_except
       (db_session_commit env ;;
        logger_info "Predefined characters added successfully.")
       (fun e =>
          db_session_rollback ;;
          logger_error ("Error adding predefined characters: " ++ str e))).

Definition add_character (name description prompt_template : string) : M string :=
  app_context
    (try_except
       (existing <- Character_query_filter_by_name_first env name ;;
        match existing with
        | Some _ => ret ("Character '" ++ name ++ "' already exists!")
        | None =>
            db_session_add_character name description prompt_template ;;
            db_session_commit env ;;
            logger_info ("Successfully added character: " ++ name) ;;
            ret ("Character '" ++ name ++ "' added successfully!" ++ Py.nl
                   ++ "Description: " ++ description)
        end)
       (fun e =>
          db_session_rollback ;;
          logger_error ("Error adding character: " ++ str e) ;;
          ret ("An error occurred while adding the character: " ++ str e))).

Definition get_existing_characters : M (list (string * string)) :=
  app_context
    (try_except
       (characters <- Character_query_all env ;;
        ret (map (fun char => (Character.name char, Character.description char)) characters))
       (fun e =>
          logger_error ("Error retrieving characters: " ++ str e) ;;
          ret [("Error retrieving characters", str e)])).

(** The [except Exception as e] clause of [chat_with_character]; [chat_id] is
    the variable as it stands when the exception is raised. *)
Definition chat_unexpected_error (chat_id : option string) (e : exn)
  : M (json * option string) :=
  logger_error ("Unexpected error in chat_with_character: " ++ str e) ;;
  ret (JStr ("An unexpected error occurred: " ++ str e), chat_id).

(** ['candidates' in response_data and response_data['candidates']], as the
    condition of an [if]. *)
Definition has_candidates (response_data : json) : M bool :=
  present <- lift (Json.contains "candidates" response_data) ;;
  if present : bool
  then candidates <- lift (Json.getitem response_data "candidates") ;;
       ret (Json.truthy candidates)
  else ret false.

(** [response_data['candidates'][0]['content']['parts'][0]['text']]. *)
Definition first_candidate_text (response_data : json) : M json :=
  candidates <- lift (Json.getitem response_data "candidates") ;;
  candidate <- lift (Json.getitem0 candidates) ;;
  content <- lift (Json.getitem candidate "content") ;;
  parts <- lift (Json.getitem content "parts") ;;
  part <- lift (Json.getitem0 parts) ;;
  lift (Json.getitem part "text").

(** The statements of [chat_with_character] after [chat_id] has its final
    value. *)
Definition chat_turn (character : Character.t) (user_input : string) (user_id : Z)
  (key chat_id : string) : M (json * option string) :=
  previous_conversations <-
    Conversation_query_filter_by_user_id_order_by_timestamp_all env user_id ;;
  let context_prompt := context_prompt_of previous_conversations in
  let prompt_template := Character.prompt_template character in
  let full_prompt := full_prompt_of prompt_template context_prompt user_input in
  let payload := payload_of full_prompt in
  emit (Post gemini_api_url payload key) ;;
  response <- lift (requests_post env payload) ;;
  if Response.status_code response =? 200
  then
    response_data <- lift (Response.json response) ;;
    candidates <- has_candidates response_data ;;
    if candidates : bool
    then
      bot_response <- first_candidate_text response_data ;;
      db_session_add_conversation env (Character.id character) user_input bot_response
        chat_id user_id ;;
      db_session_commit env ;;
      logger_info ("Saved conversation with chat_id: " ++ chat_id) ;;
      ret (bot_response, Some chat_id)
    else
      ret (JStr "An error occurred while generating content: Unexpected response format.",
           Some chat_id)
  else
    error_body <- lift (Response.json response) ;;
    logger_error ("Error from Gemini API: " ++ Json.repr error_body) ;;
    ret (JStr ("An error occurred while generating content: "
                 ++ Py.str_of_int (Response.status_code response) ++ " - "
                 ++ Response.text response),
         Some chat_id).

(** [chat_with_character].  One [try] covers the whole body in the source;
    its handler returns the variable [chat_id], which the body rebinds when
    it mints an identifier.  The handler is therefore attached twice: to the
    statements before the rebinding with the argument, to those after it
    with the final value. *)
Definition chat_with_character (character_name user_input : string) (user_id : Z)
  (chat_id : option string) : M (json * option string) :=
  emit (Enter_chat_with_character character_name user_input user_id chat_id) ;;
  app_context
    (try_except
       (key <- match gemini_api_key env with
               | Some k => if Py.truthy_str k then ret k
                           else raise (Exn ValueError "GEMINI_API_KEY is not set in the environment.")
               | None => raise (Exn ValueError "GEMINI_API_KEY is not set in the environment.")
               end ;;
        character <- Character_query_filter_by_name_first env character_name ;;
        match character with
        | None => ret (JStr "Character not found.", None)
        | Some character =>
            let chat_id :=
              match chat_id with
              | Some c => if Py.truthy_str c then c else Uuid.uuid4 (urandom16 env)
              | None => Uuid.uuid4 (urandom16 env)
              end in
            try_except
              (chat_turn character user_input user_id key chat_id)
              (chat_unexpected_error (Some chat_id))
        end)
       (chat_unexpected_error chat_id)).

Definition speech_to_text (audio_file : string) : M (option string) :=
  emit (Enter_speech_to_text audio_file) ;;
  check (record_audio env audio_file) ;;
  try_except
    (text <- lift (recognize_google env audio_file) ;;
     ret (Some text))
    (fun e =>
       match class_of e with
       | UnknownValueError =>
           logger_error "Could not understand audio" ;;
           ret None
       | RequestError =>
           logger_error ("Could not request results from Google Speech Recognition service; "
                           ++ str e) ;;
           ret None
       | _ => raise e
       end).

Definition extract_audio_from_video (video_file : string) : M (option string) :=
  emit (Enter_extract_audio_from_video video_file) ;;
  let audio_file_path := "temp_audio.wav" in
  try_except
    (check (write_audiofile env video_file) ;;
     ret (Some audio_file_path))
    (fun e =>
       logger_error ("Error extracting audio from video: " ++ str e) ;;
       ret None).

Definition get_chat_history (user_id : Z) : M (list Conversation.t) :=
  app_context
    (try_except
       (Conversation_query_filter_by_user_id_order_by_timestamp_all env user_id)
       (fun e =>
          logger_error ("Error retrieving chat history: " ++ str e) ;;
          ret [])).

(** [sign_in]: the response text and the new value of the [user_id] state. *)
Definition sign_in (user_id_input : string) : string * option Z :=
  match Py.int user_id_input with
  | Some user_id_int =>
      ("Welcome, User " ++ Py.str_of_int user_id_int ++ "!", Some user_id_int)
  | None => ("Please enter a valid numeric User ID (e.g., 123)!", None)
  end.

(** What [handle_chat] returns: the displayed messages, the chat id kept in
    the state, and the text of the chat id box. *)
Definition chat_outputs : Type := list message * option string * option string.

Definition assistant (text : string) : message :=
  {| role := "assistant"; content := JStr text |}.

Definition user (text : string) : message :=
  {| role := "user"; content := JStr text |}.

(** The [if audio_file:] block: [inl] is a [return], [inr] the values of
    [final_input] and [chat_messages] the next statement starts from. *)
Definition handle_audio (audio_file : option string) (final_input : string)
  (chat_messages : list message) (current_chat_id : option string)
  : M (chat_outputs + string * list message) :=
  match audio_file with
  | Some file =>
      if Py.truthy_str file
      then
        audio_text <- speech_to_text file ;;
        if Py.truthy_opt_str audio_text
        then ret (inr (final_input ++ " " ++ Py.str_of_opt audio_text, chat_messages))
        else ret (inl ((chat_messages ++ [assistant "Could not understand audio."])%list,
                       current_chat_id, None))
      else ret (inr (final_input, chat_messages))
  | None => ret (inr (final_input, chat_messages))
  end.

(** The [if video_file:] block, in the same form. *)
Definition handle_video (video_file : option string) (final_input : string)
  (chat_messages : list message) (current_chat_id : option string)
  : M (chat_outputs + string * list message) :=
  match video_file with
  | Some file =>
      if Py.truthy_str file
      then
        audio_file_path <- extract_audio_from_video file ;;
        match audio_file_path with
        | Some path =>
            video_text <- speech_to_text path ;;
            let final_input :=
              if Py.truthy_opt_str video_text
              then final_input ++ " " ++ Py.str_of_opt video_text
              else final_input in
            ret (inr (final_input, (chat_messages ++ [user "Video uploaded"])%list))
        | None =>
            ret (inl ((chat_messages ++ [assistant "Failed to extract audio from video."])%list,
                      current_chat_id, None))
        end
      else ret (inr (final_input, chat_messages))
  | None => ret (inr (final_input, chat_messages))
  end.

Definition handle_chat (character_name user_input audio_file video_file : option string)
  (user_id : option Z) (chat_messages : list message) (current_chat_id : option string)
  : M chat_outputs :=
  match user_id with
  | Some uid =>
      if uid =? 0
      then ret (chat_messages, current_chat_id,
                Some "Please sign in with a numeric User ID first!")
      else
        match character_name with
        | Some name =>
            if Py.truthy_str name
            then
              let final_input :=
                if Py.truthy_opt_str user_input then Py.str_of_opt user_input
                else EmptyString in
              after_audio <- handle_audio audio_file final_input chat_messages current_chat_id ;;
              match after_audio with
              | inl outputs => ret outputs
              | inr (final_input, chat_messages) =>
                  after_video <- handle_video video_file final_input chat_messages
                                   current_chat_id ;;
                  match after_video with
                  | inl outputs => ret outputs
                  | inr (final_input, chat_messages) =>
                      if Py.truthy_str (Py.strip final_input)
                      then
                        reply <- chat_with_character name final_input uid current_chat_id ;;
                        let (response, new_chat_id) := reply : json * option string in
                        ret ((chat_messages
                                ++ [user final_input;
                                    {| role := "assistant"; content := response |}])%list,
                             new_chat_id, new_chat_id)
                      else
                        ret (chat_messages, current_chat_id,
                             Some "Please provide a message, audio, or video!")
                  end
              end
            else ret (chat_messages, current_chat_id, Some "Please select a character!")
        | None => ret (chat_messages, current_chat_id, Some "Please select a character!")
        end
  | None => ret (chat_messages, current_chat_id,
                 Some "Please sign in with a numeric User ID first!")
  end.

End Application.

(** ** Notions the properties are stated with *)

(** The API credential is configured: [gemini_api_key] is a non-empty string. *)
Definition configured (env : Env) (key : string) : Prop :=
  gemini_api_key env = Some key /\ Py.truthy_str key = true.

(** The name resolves to the character [c]: the query is answered and [c] is
    the first row of that name. *)
Definition resolves (env : Env) (w : World) (name : string) (c : Character.t) : Prop :=
  db_fault env (Select_character_by_name name) = None
  /\ find (has_name name) (characters (db w)) = Some c.

(** The name resolves to no character. *)
Definition unknown (env : Env) (w : World) (name : string) : Prop :=
  db_fault env (Select_character_by_name name) = None
  /\ find (has_name name) (characters (db w)) = None.

(** The turns of a user can be read. *)
Definition history_readable (env : Env) (user_id : Z) : Prop :=
  db_fault env (Select_conversations_by_user user_id) = None.

(** The persisted turns of a user, as a call of [chat_with_character] loads
    them. *)
Definition history (w : World) (user_id : Z) : list Conversation.t :=
  order_by_timestamp (filter (of_user user_id) (conversations (db w))).

(** The session identifier a call works with: the one it is given, or a
    new one when it is given none. *)
Definition session_id (env : Env) (chat_id : option string) : string :=
  if Py.truthy_opt_str chat_id then Py.str_of_opt chat_id else Uuid.uuid4 (urandom16 env).

(** The request a call sends for a character, a user and an input. *)
Definition request_of (w : World) (c : Character.t) (user_id : Z) (user_input : string)
  : json :=
  payload_of (full_prompt_of (Character.prompt_template c)
                (context_prompt_of (history w user_id)) user_input).

(** The row a successful turn adds. *)
Definition new_turn (env : Env) (w : World) (c : Character.t) (user_input text chat_id : string)
  (user_id : Z) : Conversation.t :=
  Conversation.mk (conversation_id_seq (db w)) (Character.id c) (Some user_input) text
    (utcnow env) (Some chat_id) user_id.

Definition earlier_or_same (a b : Conversation.t) : Prop :=
  Conversation.timestamp a <= Conversation.timestamp b.

Definition is_post (e : event) : bool :=
  match e with Post _ _ _ => true | _ => false end.

Definition is_log (e : event) : bool :=
  match e with Log _ _ => true | _ => false end.

(** The events of the conversation engine: a request to the generator, an
    entry into [chat_with_character]. *)
Definition of_engine (e : event) : bool :=
  match e with
  | Post _ _ _ | Enter_chat_with_character _ _ _ _ => true
  | _ => false
  end.

(** The prompt as the specification words it: the template, the prior turns
    joined by spaces, the current turn, one after the other. *)
Definition spec_prompt (prompt_template : string) (previous : list Conversation.t)
  (user_input : string) : string :=
  prompt_template ++ Py.join " " (map turn_text previous)
    ++ "User: " ++ user_input ++ Py.nl ++ "Bot:".

(** The generator interface as the specification words it: success is status
    200 with a body that has [candidates[0].content.parts[0].text]; any other
    shape or status, and a request that gets no answer, is a failure. *)
Definition field (k : string) (v : json) : option json :=
  match v with JObj fields => Json.lookup k fields | _ => None end.

Definition first_item (v : json) : option json :=
  match v with JArr (x :: _) => Some x | _ => None end.

Definition candidate_text (body : json) : option json :=
  match field "candidates" body with
  | Some candidates =>
      match first_item candidates with
      | Some candidate =>
          match field "content" candidate with
          | Some content =>
              match field "parts" content with
              | Some parts =>
                  match first_item parts with
                  | Some part => field "text" part
                  | None => None
                  end
              | None => None
              end
          | None => None
          end
      | None => None
      end
  | None => None
  end.

Inductive generation :=
| Generated (text : json)
| Generation_failed.

Definition generation_of (answer : result Response.t) : generation :=
  match answer with
  | Raise _ => Generation_failed
  | Ok response =>
      if Response.status_code response =? 200
      then match Response.json response with
           | Ok body =>
               match candidate_text body with
               | Some text => Generated text
               | None => Generation_failed
               end
           | Raise _ => Generation_failed
           end
      else Generation_failed
  end.

(** The database answers every statement. *)
Definition db_answers (env : Env) : Prop := forall op, db_fault env op = None.

(** A character of that name is in the table. *)
Definition known (w : World) (name : string) : bool :=
  existsb (has_name name) (characters (db w)).

(** Name, description and prompt template of a row. *)
Definition persona (c : Character.t) : string * string * string :=
  (Character.name c, Character.description c, Character.prompt_template c).

Definition persona_name (p : string * string * string) : string := fst (fst p).

(** The world the body of a call of [chat_with_character] starts in. *)
Definition entered (w : World) (character_name user_input : string) (user_id : Z)
  (chat_id : option string) : World :=
  {| db := db w; session := empty_session;
     trace := Enter_chat_with_character character_name user_input user_id chat_id
                :: trace w |}.

(** An error text of [chat_with_character]. *)
Definition error_text (msg : string) : Prop :=
  exists detail,
    msg = "An error occurred while generating content: " ++ detail
    \/ msg = "An unexpected error occurred: " ++ detail.

(** ** A concrete store and concrete environments

    Used to run the functions on explicit inputs. *)

Module Demo.

(** A body of the shape the generator answers with. *)
Definition body (text : string) : json :=
  JObj [("candidates",
         JArr [JObj [("content", JObj [("parts", JArr [JObj [("text", JStr text)]])])]])].

(** Everything works: the generator answers with a joke, the recogniser does
    not understand the audio it is given. *)
Definition env : Env := {|
  gemini_api_key := Some "secret";
  urandom16 := 0x0123456789abcdef0123456789abcdef%N;
  utcnow := 1700000000;
  requests_post := fun _ =>
    Ok (Response.mk 200 "{...}" (Ok (body "Why did the chicken cross the road?")));
  record_audio := fun _ => None;
  recognize_google := fun _ => Raise (Exn UnknownValueError EmptyString);
  write_audiofile := fun _ => None;
  db_fault := fun _ => None;
  adapt_text := fun _ => Raise (Exn (Other "ProgrammingError") "can't adapt type")
|}.

(** The generator answers with status 500. *)
Definition env_500 : Env := {|
  gemini_api_key := gemini_api_key env;
  urandom16 := urandom16 env;
  utcnow := utcnow env;
  requests_post := fun _ =>
    Ok (Response.mk 500 "Internal error" (Ok (JObj [("error", JStr "internal")])));
  record_audio := record_audio env;
  recognize_google := recognize_google env;
  write_audiofile := write_audiofile env;
  db_fault := db_fault env;
  adapt_text := adapt_text env
|}.

(** No API credential. *)
Definition env_no_key : Env := {|
  gemini_api_key := None;
  urandom16 := urandom16 env;
  utcnow := utcnow env;
  requests_post := requests_post env;
  record_audio := record_audio env;
  recognize_google := recognize_google env;
  write_audiofile := write_audiofile env;
  db_fault := db_fault env;
  adapt_text := adapt_text env
|}.

(** The database raises on every statement. *)
Definition env_db_down : Env := {|
  gemini_api_key := gemini_api_key env;
  urandom16 := urandom16 env;
  utcnow := utcnow env;
  requests_post := requests_post env;
  record_audio := record_audio env;
  recognize_google := recognize_google env;
  write_audiofile := write_audiofile env;
  db_fault := fun _ => Some (Exn (Other "OperationalError") "connection lost");
  adapt_text := adapt_text env
|}.

(** The empty store. *)
Definition empty : World := {|
  db := {| characters := []; conversations := [];
           character_id_seq := 1; conversation_id_seq := 1 |};
  session := empty_session;
  trace := []
|}.

(** The same store under a trace that starts anew. *)
Definition restart (w : World) : World :=
  {| db := db w; session := session w; trace := [] |}.

(** The store after start-up. *)
Definition seeded : World := restart (snd (add_predefined_characters env empty)).

(** The store after user 123 had one turn with Chuck the Clown. *)
Definition talked : World :=
  restart (snd (chat_with_character env "Chuck the Clown" "Tell me a joke" 123 None seeded)).

Definition chuck : Character.t :=
  Character.mk 1 "Chuck the Clown" "A funny clown who tells jokes and entertains."
    "You are Chuck the Clown, always ready with a joke and entertainment. Be upbeat, silly, and include jokes in your responses.".

End Demo.

(** ** The history tab and the start of the interface *)

Section Interface.

Variable env : Env.

(** [f"{conv.timestamp}"]: how the [datetime] of a row prints. *)
Variable str_of_datetime : Z -> string.

(** [load_chat_history]: the rows of the history table.  The first column
    holds the string "Error" or the key of a turn. *)
Definition load_chat_history (user_id : option Z) : M (list (json * string)) :=
  match user_id with
  | Some uid =>
      if uid =? 0
      then ret [(JStr "Error", "Please sign in with a numeric User ID to view chat history.")]
      else
        history <- get_chat_history env uid ;;
        ret (map (fun conv =>
                    (JInt (Conversation.id conv),
                     "User: " ++ Py.str_of_opt (Conversation.user_input conv) ++ Py.nl
                       ++ "Bot: " ++ Conversation.bot_response conv
                       ++ " at " ++ str_of_datetime (Conversation.timestamp conv)))
               history)
  | None => ret [(JStr "Error", "Please sign in with a numeric User ID to view chat history.")]
  end.

(** What [create_interface] does with the store while it builds the
    widgets, in the order of the source: it seeds the personas inside an
    application context of its own, reads the characters for the table of
    the admin tab, and reads them again for the choices of the chat tab's
    dropdown ([char[0] for char in get_existing_characters()]).  The result
    is the value of the table and the list of choices. *)
Definition create_interface : M (list (string * string) * list string) :=
  app_context (add_predefined_characters env) ;;
  existing_characters <- get_existing_characters env ;;
  listed <- get_existing_characters env ;;
  ret (existing_characters, map fst listed).

End Interface.

(** The names of the table are pairwise different. *)
Definition names_unique (w : World) : Prop :=
  NoDup (map Character.name (characters (db w))).


(** The turn a call with this input, user and session identifier adds. *)
Definition turn_of (user_input : string) (user_id : Z) (sid : string)
  (turn : Conversation.t) : Prop :=
  Conversation.user_input turn = Some user_input
  /\ Conversation.user_id turn = user_id
  /\ Conversation.chat_id turn = Some sid.

(** The statements of [chat_with_character] after [chat_id] has its final
    value, under their [except] clause. *)
Definition turn_run (env : Env) (c : Character.t) (user_input : string) (user_id : Z)
  (key sid : string) (w : World) : result (json * option string) * World :=
  try_except (chat_turn env c user_input user_id key sid)
    (chat_unexpected_error (Some sid)) w.

(** The world of a turn once its request is sent. *)
Definition requested (w : World) (request : json) (key : string) : World :=
  {| db := db w; session := empty_session;
     trace := Post gemini_api_url request key :: trace w |}.


(** The placeholder row of the history tab. *)
Definition history_placeholder : list (json * string) :=
  [(JStr "Error", "Please sign in with a numeric User ID to view chat history.")].



(** The entry [get_existing_characters] gives for a row. *)
Definition listed (c : Character.t) : string * string :=
  (Character.name c, Character.description c).

(** The rows made of personas, with keys drawn from [next] on. *)
Fixpoint rows_of (next : Z) (personas : list (string * string * string))
  : list Character.t :=
  match personas with
  | [] => []
  | (name, description, prompt_template) :: rest =>
      Character.mk next name description prompt_template :: rows_of (next + 1) rest
  end.

(** The rows seeding adds to its session: the personas whose name is not in
    the table, in the order of the list. *)
Definition seed_rows (w : World) : list Character.t :=
  rows_of (character_id_seq (db w))
    (filter (fun p => negb (known w (persona_name p))) predefined_characters).

(** * Properties *)

(** ** Strings and lists *)

Lemma append_assoc (a b c : string) : (a ++ b) ++ c = a ++ b ++ c.
Proof.
  induction a as [|ch a IH]; simpl; [reflexivity | now rewrite IH].
Qed.

Lemma length_append (a b : string) :
  String.length (a ++ b) = (String.length a + String.length b)%nat.
Proof.
  induction a as [|ch a IH]; simpl; [reflexivity | now rewrite IH].
Qed.

Lemma length_substring (s : string) :
  forall n m, (n + m <= String.length s)%nat -> String.length (substring n m s) = m.
Proof.
  induction s as [|ch s IH]; intros n m H.
  - simpl in H. assert (n = 0 /\ m = 0)%nat as [-> ->] by lia. reflexivity.
  - destruct n as [|n]; destruct m as [|m]; simpl in *; try reflexivity.
    + rewrite IH by lia. reflexivity.
    + apply IH. lia.
    + apply IH. lia.
Qed.

Lemma join_cons (sep p : string) (rest : list string) :
  rest <> [] -> Py.join sep (p :: rest) = p ++ sep ++ Py.join sep rest.
Proof.
  destruct rest; [congruence | reflexivity].
Qed.

(** Every part of a joined string stands in it. *)
Lemma join_holds_part (sep x : string) (parts : list string) :
  In x parts -> exists before after, Py.join sep parts = before ++ x ++ after.
Proof.
  induction parts as [|p rest IH]; intros Hin; [contradiction|].
  destruct rest as [|q rest].
  - destruct Hin as [->|[]]. exists EmptyString, EmptyString. simpl.
    clear. induction x; simpl; congruence.
  - rewrite join_cons by discriminate.
    destruct Hin as [->|Hin].
    + exists EmptyString. eexists. simpl. reflexivity.
    + destruct (IH Hin) as (before & after & E). rewrite E.
      exists (p ++ sep ++ before), after.
      now rewrite !append_assoc.
Qed.

(** ** [ORDER BY timestamp] *)

Lemma insert_by_timestamp_perm (c : Conversation.t) (l : list Conversation.t) :
  Permutation (insert_by_timestamp c l) (c :: l).
Proof.
  induction l as [|x l IH]; simpl.
  - reflexivity.
  - destruct (Conversation.timestamp c <=? Conversation.timestamp x).
    + reflexivity.
    + rewrite IH. apply perm_swap.
Qed.

Lemma order_by_timestamp_perm (l : list Conversation.t) :
  Permutation (order_by_timestamp l) l.
Proof.
  induction l as [|x l IH]; simpl.
  - reflexivity.
  - rewrite insert_by_timestamp_perm. now constructor.
Qed.

Lemma insert_by_timestamp_sorted (c : Conversation.t) (l : list Conversation.t) :
  StronglySorted earlier_or_same l ->
  StronglySorted earlier_or_same (insert_by_timestamp c l).
Proof.
  induction 1 as [|x l Hs IH Hx]; simpl.
  - repeat constructor.
  - destruct (Conversation.timestamp c <=? Conversation.timestamp x) eqn:E.
    + apply Z.leb_le in E. constructor.
      * now constructor.
      * constructor; [exact E|].
        eapply Forall_impl; [|exact Hx].
        unfold earlier_or_same. intros; lia.
    + apply Z.leb_gt in E. constructor; [exact IH|].
      eapply Permutation_Forall.
      * symmetry. apply insert_by_timestamp_perm.
      * constructor; [unfold earlier_or_same; lia | exact Hx].
Qed.

Lemma order_by_timestamp_sorted (l : list Conversation.t) :
  StronglySorted earlier_or_same (order_by_timestamp l).
Proof.
  induction l as [|x l IH]; simpl.
  - constructor.
  - now apply insert_by_timestamp_sorted.
Qed.

(** ** Session identifiers *)

Lemma length_hex (digits : nat) : forall v, String.length (Uuid.hex digits v) = digits.
Proof.
  induction digits as [|k IH]; intros v; simpl.
  - reflexivity.
  - rewrite length_append, IH. simpl. lia.
Qed.

Lemma length_uuid4 (random : N) : String.length (Uuid.uuid4 random) = 36%nat.
Proof.
  unfold Uuid.uuid4, Uuid.str_of.
  assert (L := length_hex 32 (Uuid.uuid4_int random)).
  cbv zeta. rewrite !length_append, !length_substring by (rewrite L; lia).
  reflexivity.
Qed.

Lemma uuid4_truthy (random : N) : Py.truthy_str (Uuid.uuid4 random) = true.
Proof.
  assert (L := length_uuid4 random).
  destruct (Uuid.uuid4 random); [discriminate | reflexivity].
Qed.

Lemma session_id_truthy (env : Env) (chat_id : option string) :
  Py.truthy_str (session_id env chat_id) = true.
Proof.
  unfold session_id.
  destruct chat_id as [[|ch s]|]; simpl; try reflexivity; apply uuid4_truthy.
Qed.

Local Open Scope list_scope.

(** ** Reading the generator's answer *)

Ltac unfold_monad :=
  cbv [bind ret raise try_except lift check emit logger_info logger_error].

(** [v[k]] is the field [k] of an object and raises on everything else. *)
Lemma getitem_spec (v : json) (k : string) :
  (exists x, Json.getitem v k = Ok x /\ field k v = Some x)
  \/ (exists e, Json.getitem v k = Raise e /\ field k v = None).
Proof.
  destruct v; simpl; try (right; eexists; split; reflexivity).
  destruct (Json.lookup k fields); [left | right]; eexists; split; reflexivity.
Qed.

(** [v[0]] is the first item of a list; on a string it gives a string, which
    has no fields; it raises on everything else. *)
Lemma getitem0_spec (v : json) :
  (exists x, Json.getitem0 v = Ok x /\ first_item v = Some x)
  \/ (exists e, Json.getitem0 v = Raise e /\ first_item v = None)
  \/ (exists s, Json.getitem0 v = Ok (JStr s) /\ first_item v = None).
Proof.
  destruct v as [| | |[|c s]|[|y items]|]; simpl;
    try (right; left; eexists; split; reflexivity).
  - right; right. eexists; split; reflexivity.
  - left. eexists; split; reflexivity.
Qed.

Lemma has_candidates_pure (body : json) (w : World) :
  exists r, has_candidates body w = (r, w).
Proof.
  unfold has_candidates. unfold_monad.
  destruct (Json.contains "candidates" body) as [[|]|e]; eauto.
  destruct (Json.getitem body "candidates"); eauto.
Qed.

Ltac absent := eexists; split; [reflexivity | intros ?; split; discriminate].

(** The subscript chain of the source succeeds exactly when the body has
    the path [candidates[0].content.parts[0].text], and gives what is there. *)
Lemma first_candidate_text_pure (body : json) (w : World) :
  exists r, first_candidate_text body w = (r, w)
            /\ forall t, r = Ok t <-> candidate_text body = Some t.
Proof.
  unfold first_candidate_text, candidate_text. unfold_monad.
  destruct (getitem_spec body "candidates") as [(cs & -> & ->)|(e & -> & ->)]; [|absent].
  destruct (getitem0_spec cs) as [(c & -> & ->)|[(e & -> & ->)|(s & -> & ->)]];
    [| absent | simpl; absent].
  destruct (getitem_spec c "content") as [(ct & -> & ->)|(e & -> & ->)]; [|absent].
  destruct (getitem_spec ct "parts") as [(ps & -> & ->)|(e & -> & ->)]; [|absent].
  destruct (getitem0_spec ps) as [(p & -> & ->)|[(e & -> & ->)|(s & -> & ->)]];
    [| absent | simpl; absent].
  destruct (getitem_spec p "text") as [(t' & -> & ->)|(e & -> & ->)]; [|absent].
  eexists; split; [reflexivity | intros t; split; congruence].
Qed.

(** A body with the path has candidates. *)
Lemma has_candidates_of_text (body t : json) (w : World) :
  candidate_text body = Some t -> has_candidates body w = (Ok true, w).
Proof.
  unfold candidate_text, has_candidates. unfold_monad.
  destruct body; simpl; try discriminate.
  destruct (Json.lookup "candidates" fields) as [cs|]; [|discriminate].
  destruct cs as [| | | |[|c items]|]; simpl; try discriminate.
  reflexivity.
Qed.

(** ** A turn of [chat_with_character] *)

Ltac turn_fails n :=
  cbn [fst snd db session trace characters conversations];
  eexists;
  match n with
  | O => exists []
  | _ => eexists [_]
  end;
  repeat split; try reflexivity;
  eexists; split; [reflexivity|]; eexists; first [left; reflexivity | right; reflexivity].

Section Turn.

Variables (env : Env) (c : Character.t) (user_input : string) (user_id : Z).
Variables (key sid : string) (w : World).
Hypothesis readable : history_readable env user_id.
Hypothesis fresh_session : session w = empty_session.

(** The turn once the history is read: one request, only log records after
    it, the characters untouched, and a row exactly when the generator gave
    a text that the store took. *)
Lemma turn_outcome :
  let run := try_except (chat_turn env c user_input user_id key sid)
               (chat_unexpected_error (Some sid)) w in
  let request := request_of w c user_id user_input in
  exists reply logs,
    fst run = Ok (reply, Some sid)
    /\ trace (snd run) = logs ++ Post gemini_api_url request key :: trace w
    /\ forallb is_log logs = true
    /\ characters (db (snd run)) = characters (db w)
    /\ match generation_of (requests_post env request) with
       | Generated text =>
           match bind_text env text with
           | Ok s =>
               let turn := new_turn env w c user_input s sid user_id in
               match db_fault env (Commit [] [turn]) with
               | None =>
                   conversations (db (snd run)) = conversations (db w) ++ [turn]
                   /\ reply = text
               | Some _ =>
                   conversations (db (snd run)) = conversations (db w)
                   /\ exists msg, reply = JStr msg /\ error_text msg
               end
           | Raise _ =>
               conversations (db (snd run)) = conversations (db w)
               /\ exists msg, reply = JStr msg /\ error_text msg
           end
       | Generation_failed =>
           conversations (db (snd run)) = conversations (db w)
           /\ exists msg, reply = JStr msg /\ error_text msg
       end.
Proof.
  cbv zeta. unfold chat_turn, chat_unexpected_error,
    Conversation_query_filter_by_user_id_order_by_timestamp_all.
  unfold_monad. rewrite readable. unfold visible_conversations.
  rewrite fresh_session. cbn [added_conversations empty_session].
  rewrite app_nil_r. fold (history w user_id).
  fold (request_of w c user_id user_input).
  cbn [db session trace].
  unfold generation_of.
  destruct (requests_post env _) as [response|e]; [|turn_fails 1%nat].
  destruct (Response.status_code response =? 200).
  2:{ destruct (Response.json response) as [body|e]; turn_fails 1%nat. }
  destruct (Response.json response) as [body|e]; [|turn_fails 1%nat].
  match goal with
  | |- context [has_candidates body ?W] =>
      destruct (has_candidates_pure body W) as [r Hr];
      assert (Ht := fun t => @has_candidates_of_text body t W); rewrite Hr in *
  end.
  destruct r as [[|]|e].
  2:{ destruct (candidate_text body) as [t|]; [specialize (Ht t eq_refl); discriminate|].
      turn_fails 0%nat. }
  2:{ destruct (candidate_text body) as [t|]; [specialize (Ht t eq_refl); discriminate|].
      turn_fails 1%nat. }
  clear Ht Hr.
  match goal with
  | |- context [first_candidate_text body ?W] =>
      destruct (first_candidate_text_pure body W) as (r & Hr & Ht); rewrite Hr
  end.
  destruct r as [t|e].
  2:{ destruct (candidate_text body) as [t|]; [discriminate (proj2 (Ht t) eq_refl)|].
      turn_fails 1%nat. }
  rewrite (proj1 (Ht t) eq_refl).
  unfold db_session_add_conversation, db_session_commit.
  destruct (bind_text env t) as [s|e]; [|turn_fails 1%nat].
  cbn [db session trace added_characters added_conversations empty_session app
         conversation_id_seq].
  unfold new_turn.
  destruct (db_fault env _) as [e|]; [turn_fails 1%nat|].
  cbn [fst snd db session trace characters conversations].
  eexists _, [_]. repeat split; try reflexivity.
  now rewrite app_nil_r.
Qed.
End Turn.

(** The turn when the history cannot be read: the handler answers, with the
    session identifier, and nothing is sent. *)
Lemma turn_unreadable (env : Env) (c : Character.t) (user_input : string) (user_id : Z)
  (key sid : string) (w : World) (e : exn) :
  db_fault env (Select_conversations_by_user user_id) = Some e ->
  try_except (chat_turn env c user_input user_id key sid)
    (chat_unexpected_error (Some sid)) w
  = (Ok (JStr ("An unexpected error occurred: " ++ str e), Some sid),
     {| db := db w; session := session w;
        trace := Log ERROR ("Unexpected error in chat_with_character: " ++ str e)
                   :: trace w |}).
Proof.
  intros F. unfold chat_turn, chat_unexpected_error,
    Conversation_query_filter_by_user_id_order_by_timestamp_all.
  unfold_monad. rewrite F. reflexivity.
Qed.

(** ** [chat_with_character] *)

Lemma session_id_eq (env : Env) (chat_id : option string) :
  match chat_id with
  | Some c => if Py.truthy_str c then c else Uuid.uuid4 (urandom16 env)
  | None => Uuid.uuid4 (urandom16 env)
  end = session_id env chat_id.
Proof.
  destruct chat_id as [[|ch s]|]; reflexivity.
Qed.


(** With the credential configured and the character known, a call is a
    turn with the session identifier. *)
Lemma chat_reaches_turn (env : Env) (w : World) (character_name user_input : string)
  (user_id : Z) (chat_id : option string) (key : string) (c : Character.t) :
  configured env key -> resolves env w character_name c ->
  chat_with_character env character_name user_input user_id chat_id w
  = let out := try_except
                 (chat_turn env c user_input user_id key (session_id env chat_id))
                 (chat_unexpected_error (Some (session_id env chat_id)))
                 (entered w character_name user_input user_id chat_id) in
    (fst out, {| db := db (snd out); session := session w; trace := trace (snd out) |}).
Proof.
  intros [K T] [Q F].
  unfold chat_with_character, app_context, Character_query_filter_by_name_first,
    chat_unexpected_error, entered, visible_characters.
  unfold_monad. rewrite K, T, Q.
  cbn [db session trace added_characters empty_session].
  rewrite app_nil_r, F, session_id_eq.
  destruct (chat_turn _ _ _ _ _ _ _) as [[a|e] w']; reflexivity.
Qed.

Lemma filter_post_logs (logs : list event) :
  forallb is_log logs = true -> filter is_post logs = [].
Proof.
  induction logs as [|[] logs IH]; simpl; try discriminate; auto.
Qed.

(** What a call does once the credential is configured, the character known
    and the history readable: one request, then the outcome the generator's
    answer decides. *)
Lemma chat_outcome (env : Env) (w : World) (character_name user_input : string)
  (user_id : Z) (chat_id : option string) (key : string) (c : Character.t) :
  configured env key -> resolves env w character_name c -> history_readable env user_id ->
  let run := chat_with_character env character_name user_input user_id chat_id w in
  let sid := session_id env chat_id in
  let request := request_of w c user_id user_input in
  exists reply logs,
    fst run = Ok (reply, Some sid)
    /\ trace (snd run)
       = logs ++ Post gemini_api_url request key
           :: Enter_chat_with_character character_name user_input user_id chat_id
           :: trace w
    /\ forallb is_log logs = true
    /\ characters (db (snd run)) = characters (db w)
    /\ session (snd run) = session w
    /\ match generation_of (requests_post env request) with
       | Generated text =>
           match bind_text env text with
           | Ok s =>
               let turn := new_turn env w c user_input s sid user_id in
               match db_fault env (Commit [] [turn]) with
               | None =>
                   conversations (db (snd run)) = conversations (db w) ++ [turn]
                   /\ reply = text
               | Some _ =>
                   conversations (db (snd run)) = conversations (db w)
                   /\ exists msg, reply = JStr msg /\ error_text msg
               end
           | Raise _ =>
               conversations (db (snd run)) = conversations (db w)
               /\ exists msg, reply = JStr msg /\ error_text msg
           end
       | Generation_failed =>
           conversations (db (snd run)) = conversations (db w)
           /\ exists msg, reply = JStr msg /\ error_text msg
       end.
Proof.
  intros K R H run sid request. subst run.
  rewrite (chat_reaches_turn _ _ _ K R). cbv zeta. cbn [fst snd db session trace].
  destruct (@turn_outcome env c user_input user_id key sid
              (entered w character_name user_input user_id chat_id) H eq_refl)
    as (reply & logs & E1 & E2 & E3 & E4 & E5).
  exists reply, logs. repeat split; assumption.
Qed.

(** Whatever the store and the generator do afterwards, a call that found
    its character returns the session identifier. *)
Lemma chat_returns_session_id (env : Env) (w : World) (character_name user_input : string)
  (user_id : Z) (chat_id : option string) (key : string) (c : Character.t) :
  configured env key -> resolves env w character_name c ->
  exists reply,
    fst (chat_with_character env character_name user_input user_id chat_id w)
    = Ok (reply, Some (session_id env chat_id)).
Proof.
  intros K R. rewrite (chat_reaches_turn _ _ _ K R). cbv zeta. cbn [fst].
  destruct (db_fault env (Select_conversations_by_user user_id)) as [e|] eqn:F.
  - erewrite turn_unreadable by exact F. eexists. reflexivity.
  - destruct (@turn_outcome env c user_input user_id key (session_id env chat_id)
                (entered w character_name user_input user_id chat_id) F eq_refl)
      as (reply & logs & E1 & _).
    exists reply. exact E1.
Qed.

(** A call that reaches the generator sends it one request, built from the
    character's template, the user's history and the input. *)
Lemma chat_sends_one_request (env : Env) (w : World) (character_name user_input : string)
  (user_id : Z) (chat_id : option string) (key : string) (c : Character.t) :
  configured env key -> resolves env w character_name c -> history_readable env user_id ->
  exists events,
    trace (snd (chat_with_character env character_name user_input user_id chat_id w))
    = events ++ trace w
    /\ filter is_post events
       = [Post gemini_api_url (request_of w c user_id user_input) key].
Proof.
  intros K R H.
  destruct (chat_outcome user_input chat_id K R H) as (reply & logs & _ & T & L & _).
  exists (logs ++ [Post gemini_api_url (request_of w c user_id user_input) key;
                   Enter_chat_with_character character_name user_input user_id chat_id]).
  split.
  - rewrite T, <- app_assoc. reflexivity.
  - rewrite filter_app, (filter_post_logs _ L). reflexivity.
Qed.

Lemma history_has_turn (w : World) (user_id : Z) (turn : Conversation.t) :
  In turn (conversations (db w)) -> Conversation.user_id turn = user_id ->
  In turn (history w user_id).
Proof.
  intros I U. unfold history.
  eapply Permutation_in; [symmetry; apply order_by_timestamp_perm|].
  apply filter_In. split; [exact I|]. unfold of_user. now apply Z.eqb_eq.
Qed.



(** C3, as amended: the prompt of the one request a call sends is the
    character's [prompt_template], a line feed, the pairs
    "User: {input}\nBot: {response}" of the user's prior turns joined by
    spaces, a line feed, and the current turn "User: {user_input}\nBot:". *)
Theorem chat_prompt_layout
  (env : Env) (w : World) (character_name user_input : string) (user_id : Z)
  (chat_id : option string) (key : string) (c : Character.t) :
  configured env key -> resolves env w character_name c -> history_readable env user_id ->
  exists events,
    trace (snd (chat_with_character env character_name user_input user_id chat_id w))
    = events ++ trace w
    /\ filter is_post events
       = [Post gemini_api_url
            (JObj [("contents",
                    JArr [JObj [("parts",
                                 JArr [JObj [("text",
                                              JStr (Character.prompt_template c
                                                    ++ Py.nl
                                                    ++ Py.join " "
                                                         (map (fun conv =>
                                                                 "User: "
                                                                 ++ Py.str_of_opt (Conversation.user_input conv)
                                                                 ++ Py.nl ++ "Bot: "
                                                                 ++ Conversation.bot_response conv)
                                                            (history w user_id))
                                                    ++ Py.nl
                                                    ++ "User: " ++ user_input ++ Py.nl ++ "Bot:")%string)]])]])])
            key].
Proof.
  intros K R H.
  destruct (chat_sends_one_request user_input chat_id K R H) as (events & T & P).
  exists events. split; [exact T | exact P].
Qed.

Lemma chat_prompt_layout_witness :
  exists events,
    trace (snd (chat_with_character Demo.env "Chuck the Clown" "Another one" 123 None
                  Demo.talked))
    = events ++ trace Demo.talked
    /\ filter is_post events
       = [Post gemini_api_url
            (JObj [("contents",
                    JArr [JObj [("parts",
                                 JArr [JObj [("text",
                                              JStr (Character.prompt_template Demo.chuck
                                                    ++ Py.nl
                                                    ++ Py.join " "
                                                         (map (fun conv =>
                                                                 "User: "
                                                                 ++ Py.str_of_opt (Conversation.user_input conv)
                                                                 ++ Py.nl ++ "Bot: "
                                                                 ++ Conversation.bot_response conv)
                                                            (history Demo.talked 123))
                                                    ++ Py.nl
                                                    ++ "User: " ++ "Another one" ++ Py.nl ++ "Bot:")%string)]])]])])
            "secret"].
Proof.
  apply (@chat_prompt_layout Demo.env Demo.talked "Chuck the Clown" "Another one" 123 None
           "secret" Demo.chuck).
  - split; reflexivity.
  - split; reflexivity.
  - reflexivity.
Defined.

(** C3, as stated, fails: for Chuck the Clown, one prior turn and the input
    "Another one", the prompt that is sent is not the bare concatenation of
    template, prior turns and current turn. *)
Lemma chat_prompt_is_not_the_bare_concatenation :
  exists sent,
    filter is_post
      (trace (snd (chat_with_character Demo.env "Chuck the Clown" "Another one" 123 None
                     Demo.talked)))
    = [Post gemini_api_url (payload_of sent) "secret"]
    /\ resolves Demo.env Demo.talked "Chuck the Clown" Demo.chuck
    /\ sent <> spec_prompt (Character.prompt_template Demo.chuck)
                 (history Demo.talked 123) "Another one".
Proof.
  eexists. split; [vm_compute; reflexivity|].
  split; [split; reflexivity|].
  vm_compute. discriminate.
Qed.

(** Without a credential the call stops at its first statement. *)
Lemma chat_without_credential (env : Env) (w : World) (character_name user_input : string)
  (user_id : Z) (chat_id : option string) :
  Py.truthy_opt_str (gemini_api_key env) = false ->
  chat_with_character env character_name user_input user_id chat_id w
  = (Ok (JStr "An unexpected error occurred: GEMINI_API_KEY is not set in the environment.",
         chat_id),
     {| db := db w; session := session w;
        trace := Log ERROR "Unexpected error in chat_with_character: GEMINI_API_KEY is not set in the environment."
                   :: Enter_chat_with_character character_name user_input user_id chat_id
                   :: trace w |}).
Proof.
  intros A. unfold chat_with_character, app_context, chat_unexpected_error.
  unfold_monad.
  destruct (gemini_api_key env) as [k|]; [simpl in A; rewrite A|]; reflexivity.
Qed.





(** C9: whatever chat id is passed, a call whose character name resolves to
    no character returns "Character not found." with [None] as the session
    identifier, and leaves the store as it is; whereas every call that finds
    its character, the failing ones among them, returns the session
    identifier it works with: the chat id passed when there is one, a minted
    one otherwise. *)
Theorem chat_with_unknown_character_drops_the_chat_id
  (env : Env) (w : World) (character_name user_input : string) (user_id : Z)
  (chat_id : option string) (key : string) :
  configured env key -> unknown env w character_name ->
  chat_with_character env character_name user_input user_id chat_id w
  = (Ok (JStr "Character not found.", None),
     {| db := db w; session := session w;
        trace := Enter_chat_with_character character_name user_input user_id chat_id
                   :: trace w |})
  /\ forall known_name c,
      resolves env w known_name c ->
      exists reply,
        fst (chat_with_character env known_name user_input user_id chat_id w)
        = Ok (reply, Some (session_id env chat_id))
        /\ (Py.truthy_opt_str chat_id = true -> Some (session_id env chat_id) = chat_id)
        /\ (Py.truthy_opt_str chat_id = false
            -> session_id env chat_id = Uuid.uuid4 (urandom16 env)).
Proof.
  intros [K T] [Q F]. split.
  - unfold chat_with_character, app_context, Character_query_filter_by_name_first,
      visible_characters.
    unfold_monad. rewrite K, T, Q.
    cbn [db session trace added_characters empty_session].
    rewrite app_nil_r, F. reflexivity.
  - intros known_name c R.
    destruct (chat_returns_session_id user_input user_id chat_id (conj K T) R)
      as (reply & E).
    exists reply. split; [exact E|]. unfold session_id.
    split; intros Hc; rewrite Hc; [|reflexivity].
    destruct chat_id as [s|]; [reflexivity | discriminate].
Qed.

Lemma chat_with_unknown_character_drops_the_chat_id_witness :
  chat_with_character Demo.env "Unknown Character" "hi" 1 (Some "my-session") Demo.seeded
  = (Ok (JStr "Character not found.", None),
     {| db := db Demo.seeded; session := session Demo.seeded;
        trace := Enter_chat_with_character "Unknown Character" "hi" 1 (Some "my-session")
                   :: trace Demo.seeded |})
  /\ forall known_name c,
      resolves Demo.env Demo.seeded known_name c ->
      exists reply,
        fst (chat_with_character Demo.env known_name "hi" 1 (Some "my-session") Demo.seeded)
        = Ok (reply, Some (session_id Demo.env (Some "my-session")))
        /\ (Py.truthy_opt_str (Some "my-session") = true
            -> Some (session_id Demo.env (Some "my-session")) = Some "my-session")
        /\ (Py.truthy_opt_str (Some "my-session") = false
            -> session_id Demo.env (Some "my-session") = Uuid.uuid4 (urandom16 Demo.env)).
Proof.
  apply (@chat_with_unknown_character_drops_the_chat_id Demo.env Demo.seeded
           "Unknown Character" "hi" 1 (Some "my-session") "secret").
  - split; reflexivity.
  - split; reflexivity.
Defined.

(** ** The character registry *)

Lemma find_app {A} (f : A -> bool) (l l' : list A) :
  find f (l ++ l') = match find f l with Some x => Some x | None => find f l' end.
Proof.
  induction l as [|x l IH]; simpl; [reflexivity|]. now destruct (f x).
Qed.

Lemma existsb_find {A} (f : A -> bool) (l : list A) :
  existsb f l = match find f l with Some _ => true | None => false end.
Proof.
  induction l as [|x l IH]; simpl; [reflexivity|]. now destruct (f x).
Qed.

(** What seeding does when the database answers: it appends, in the order of
    the list, the personas whose name is not in the table. *)
Lemma seeding (env : Env) (w : World) :
  db_answers env ->
  let run := add_predefined_characters env w in
  exists rows,
    fst run = Ok tt
    /\ characters (db (snd run)) = characters (db w) ++ rows
    /\ map persona rows
       = filter (fun p => negb (known w (persona_name p))) predefined_characters
    /\ conversations (db (snd run)) = conversations (db w)
    /\ session (snd run) = session w.
Proof.
  intros A. unfold add_predefined_characters, app_context, predefined_characters,
    for_each, Character_query_filter_by_name_first, db_session_add_character,
    db_session_commit, db_session_rollback, visible_characters, known.
  unfold_monad. rewrite !A. cbv beta iota.
  cbn [filter persona_name fst].
  rewrite !existsb_find.
  cbn [db session trace added_characters empty_session].
  rewrite app_nil_r.
  destruct (find (has_name "Chuck the Clown") (characters (db w))) eqn:F1;
    cbn [db session trace added_characters added_conversations empty_session
           characters conversations character_id_seq conversation_id_seq app];
    rewrite ?find_app, ?app_nil_r;
    destruct (find (has_name "Sarcastic Pirate") (characters (db w))) eqn:F2;
    cbn [db session trace added_characters added_conversations empty_session
           characters conversations character_id_seq conversation_id_seq app
           find has_name Character.name String.eqb Ascii.eqb Bool.eqb];
    rewrite ?find_app, ?app_nil_r;
    destruct (find (has_name "Professor Sage") (characters (db w))) eqn:F3;
    cbn [db session trace added_characters added_conversations empty_session
           characters conversations character_id_seq conversation_id_seq app
           find has_name Character.name String.eqb Ascii.eqb Bool.eqb];
    rewrite ?A;
    cbn [fst snd db session trace added_characters added_conversations empty_session
           characters conversations character_id_seq conversation_id_seq negb];
    eexists; (split; [reflexivity|]); (split; [reflexivity|]);
    rewrite ?app_nil_r; repeat split; reflexivity.
Qed.

Lemma filter_none {A} (f : A -> bool) (l : list A) :
  (forall x, In x l -> f x = false) -> filter f l = [].
Proof.
  induction l as [|x l IH]; intros H; simpl; [reflexivity|].
  rewrite (H x (or_introl eq_refl)). apply IH. intros y I. apply H. now right.
Qed.

(** After seeding every persona is known. *)
Lemma seeded_known (w once : World) (rows : list Character.t) :
  characters (db once) = characters (db w) ++ rows ->
  map persona rows
  = filter (fun p => negb (known w (persona_name p))) predefined_characters ->
  forall p, In p predefined_characters -> known once (persona_name p) = true.
Proof.
  intros C R p I. unfold known. rewrite C, existsb_app.
  destruct (existsb (has_name (persona_name p)) (characters (db w))) eqn:E; [reflexivity|].
  assert (In p (map persona rows)) as Hp.
  { rewrite R. apply filter_In. split; [exact I|]. unfold known. now rewrite E. }
  apply in_map_iff in Hp. destruct Hp as (row & <- & Hrow).
  simpl. apply existsb_exists. exists row. split; [exact Hrow|].
  unfold has_name, persona_name, persona. simpl. apply String.eqb_refl.
Qed.

(** C5: seeding inserts a default persona exactly when no character of its
    name is in the table, so a second seeding inserts nothing; seeding twice
    from an empty table leaves the three personas Chuck the Clown, Sarcastic
    Pirate and Professor Sage, three rows and not six. *)
Theorem seeding_is_idempotent (env env' : Env) (w : World) :
  db_answers env -> db_answers env' ->
  let once := snd (add_predefined_characters env w) in
  let twice := snd (add_predefined_characters env' once) in
  (exists rows,
      characters (db once) = characters (db w) ++ rows
      /\ map persona rows
         = filter (fun p => negb (known w (persona_name p))) predefined_characters
      /\ forall p, In p predefined_characters ->
                   (In p (map persona rows) <-> known w (persona_name p) = false))
  /\ characters (db twice) = characters (db once)
  /\ (characters (db w) = [] ->
      map persona (characters (db twice)) = predefined_characters
      /\ map Character.name (characters (db twice))
         = ["Chuck the Clown"; "Sarcastic Pirate"; "Professor Sage"]
      /\ List.length (characters (db twice)) = 3%nat).
Proof.
  intros A A' once twice.
  destruct (seeding w A) as (rows & _ & C & R & _). fold once in C.
  destruct (seeding once A') as (rows' & _ & C' & R' & _). fold twice in C'.
  assert (characters (db twice) = characters (db once)) as Same.
  { rewrite filter_none in R'.
    - apply map_eq_nil in R'. rewrite C', R'. apply app_nil_r.
    - intros p I. now rewrite (@seeded_known w once rows C R p I). }
  split; [|split; [exact Same|]].
  - exists rows. split; [exact C|]. split; [exact R|].
    intros p I. rewrite R, filter_In, negb_true_iff. tauto.
  - intros Empty. rewrite Same, C, Empty. cbn [app].
    assert (map persona rows = predefined_characters) as P.
    { rewrite R. unfold known. rewrite Empty. reflexivity. }
    split; [exact P|]. split.
    + transitivity (map persona_name (map persona rows));
        [rewrite map_map; reflexivity | rewrite P; reflexivity].
    + rewrite <- (length_map persona), P. reflexivity.
Qed.

Lemma seeding_is_idempotent_witness :
  let once := snd (add_predefined_characters Demo.env Demo.empty) in
  let twice := snd (add_predefined_characters Demo.env once) in
  (exists rows,
      characters (db once) = characters (db Demo.empty) ++ rows
      /\ map persona rows
         = filter (fun p => negb (known Demo.empty (persona_name p))) predefined_characters
      /\ forall p, In p predefined_characters ->
                   (In p (map persona rows) <-> known Demo.empty (persona_name p) = false))
  /\ characters (db twice) = characters (db once)
  /\ (characters (db Demo.empty) = [] ->
      map persona (characters (db twice)) = predefined_characters
      /\ map Character.name (characters (db twice))
         = ["Chuck the Clown"; "Sarcastic Pirate"; "Professor Sage"]
      /\ List.length (characters (db twice)) = 3%nat).
Proof.
  apply (@seeding_is_idempotent Demo.env Demo.env Demo.empty).
  - intros op. reflexivity.
  - intros op. reflexivity.
Defined.

(** C6: when a character of the given name is in the table, [add_character]
    changes nothing and answers that the character already exists; when none
    is, it appends exactly one row, with the given name, description and
    prompt template, and answers with a success text that carries the
    description stored in the row. *)
Theorem add_character_refuses_a_known_name
  (env : Env) (w : World) (name description prompt_template : string) :
  db_fault env (Select_character_by_name name) = None ->
  let run := add_character env name description prompt_template w in
  let row := Character.mk (character_id_seq (db w)) name description prompt_template in
  (known w name = true ->
   run = (Ok ("Character '" ++ name ++ "' already exists!")%string, w))
  /\ (known w name = false ->
      db_fault env (Commit [row] []) = None ->
      fst run = Ok ("Character '" ++ name ++ "' added successfully!" ++ Py.nl
                      ++ "Description: " ++ Character.description row)%string
      /\ characters (db (snd run)) = characters (db w) ++ [row]
      /\ conversations (db (snd run)) = conversations (db w)).
Proof.
  intros Q run row. subst run.
  unfold add_character, app_context, Character_query_filter_by_name_first,
    db_session_add_character, db_session_commit, db_session_rollback, visible_characters,
    known.
  unfold_monad. rewrite Q, existsb_find.
  cbn [db session trace added_characters empty_session]. rewrite app_nil_r.
  destruct (find (has_name name) (characters (db w))) as [found|];
    split; try discriminate.
  - intros _. destruct w; reflexivity.
  - intros _.
    cbn [db session trace added_characters added_conversations empty_session app
           characters conversations character_id_seq conversation_id_seq].
    fold row. intros ->. cbn [fst snd db conversations characters].
    rewrite app_nil_r. repeat split; reflexivity.
Qed.

Lemma add_character_refuses_a_known_name_witness :
  add_character Demo.env "Chuck the Clown" "Another clown" "You are a clown." Demo.seeded
  = (Ok "Character 'Chuck the Clown' already exists!", Demo.seeded)
  /\ (let run := add_character Demo.env "Captain Hook" "A pirate" "You are a pirate."
                   Demo.seeded in
      let row := Character.mk 4 "Captain Hook" "A pirate" "You are a pirate." in
      fst run = Ok ("Character '" ++ "Captain Hook" ++ "' added successfully!" ++ Py.nl
                      ++ "Description: " ++ Character.description row)%string
      /\ characters (db (snd run)) = characters (db Demo.seeded) ++ [row]
      /\ conversations (db (snd run)) = conversations (db Demo.seeded)).
Proof.
  split.
  - exact (proj1 (@add_character_refuses_a_known_name Demo.env Demo.seeded
                    "Chuck the Clown" "Another clown" "You are a clown." eq_refl) eq_refl).
  - exact (proj2 (@add_character_refuses_a_known_name Demo.env Demo.seeded
                    "Captain Hook" "A pirate" "You are a pirate." eq_refl) eq_refl eq_refl).
Defined.

(** C7, as amended: when the query for the characters fails,
    [get_existing_characters] returns the one placeholder entry
    ("Error retrieving characters", text of the failure); the failure is
    logged and not raised, and the store is left as it is. *)
Theorem get_existing_characters_answers_a_failure_with_a_placeholder
  (env : Env) (w : World) (e : exn) :
  db_fault env Select_characters = Some e ->
  get_existing_characters env w
  = (Ok [("Error retrieving characters", str e)],
     {| db := db w; session := session w;
        trace := Log ERROR ("Error retrieving characters: " ++ str e)%string :: trace w |}).
Proof.
  intros F. unfold get_existing_characters, app_context, Character_query_all.
  unfold_monad. rewrite F. reflexivity.
Qed.

Lemma get_existing_characters_answers_a_failure_with_a_placeholder_witness :
  get_existing_characters Demo.env_db_down Demo.seeded
  = (Ok [("Error retrieving characters", "connection lost")],
     {| db := db Demo.seeded; session := session Demo.seeded;
        trace := Log ERROR "Error retrieving characters: connection lost"
                   :: trace Demo.seeded |}).
Proof.
  exact (@get_existing_characters_answers_a_failure_with_a_placeholder
           Demo.env_db_down Demo.seeded (Exn (Other "OperationalError") "connection lost")
           eq_refl).
Defined.

(** C7, as stated, fails: with a database that raises on every statement
    the sequence returned is not empty. *)
Lemma get_existing_characters_is_not_empty_on_failure :
  db_fault Demo.env_db_down Select_characters
  = Some (Exn (Other "OperationalError") "connection lost")
  /\ fst (get_existing_characters Demo.env_db_down Demo.seeded)
     = Ok [("Error retrieving characters", "connection lost")]
  /\ fst (get_existing_characters Demo.env_db_down Demo.seeded) <> Ok [].
Proof.
  split; [reflexivity|]. split; [reflexivity|]. discriminate.
Qed.

(** ** The chat handler *)



(** C10: [sign_in] accepts the input "0" and answers with a welcome and the
    user id 0; [handle_chat] with that user id answers
    "Please sign in with a numeric User ID first!" and does nothing else:
    the world is as before, so neither [speech_to_text] nor
    [chat_with_character] was entered. *)
Theorem user_zero_signs_in_but_cannot_chat :
  sign_in "0" = ("Welcome, User 0!", Some 0)
  /\ forall (env : Env) (w : World)
       (character_name user_input audio_file video_file : option string)
       (chat_messages : list message) (current_chat_id : option string),
      handle_chat env character_name user_input audio_file video_file
        (snd (sign_in "0")) chat_messages current_chat_id w
      = (Ok (chat_messages, current_chat_id,
             Some "Please sign in with a numeric User ID first!"), w).
Proof.
  split; [reflexivity|]. intros. reflexivity.
Qed.

(** * Further properties of the module *)

(** ** [chat_with_character] under every environment *)

(** The call when the lookup of the character fails. *)
Lemma chat_lookup_fails (env : Env) (w : World) (character_name user_input : string)
  (user_id : Z) (chat_id : option string) (key : string) (e : exn) :
  configured env key ->
  db_fault env (Select_character_by_name character_name) = Some e ->
  chat_with_character env character_name user_input user_id chat_id w
  = (Ok (JStr ("An unexpected error occurred: " ++ str e)%string, chat_id),
     {| db := db w; session := session w;
        trace := Log ERROR ("Unexpected error in chat_with_character: " ++ str e)%string
                   :: Enter_chat_with_character character_name user_input user_id chat_id
                   :: trace w |}).
Proof.
  intros [K T] F.
  unfold chat_with_character, app_context, Character_query_filter_by_name_first,
    chat_unexpected_error.
  unfold_monad. rewrite K, T, F. reflexivity.
Qed.

(** The call when the name resolves to no character. *)
Lemma chat_character_not_found (env : Env) (w : World) (character_name user_input : string)
  (user_id : Z) (chat_id : option string) (key : string) :
  configured env key -> unknown env w character_name ->
  chat_with_character env character_name user_input user_id chat_id w
  = (Ok (JStr "Character not found.", None),
     {| db := db w; session := session w;
        trace := Enter_chat_with_character character_name user_input user_id chat_id
                   :: trace w |}).
Proof.
  intros [K T] [Q F].
  unfold chat_with_character, app_context, Character_query_filter_by_name_first,
    visible_characters.
  unfold_monad. rewrite K, T, Q.
  cbn [db session trace added_characters empty_session].
  rewrite app_nil_r, F. reflexivity.
Qed.

(** The credential is configured or it is not. *)
Lemma configured_or_not (env : Env) :
  (exists key, configured env key) \/ Py.truthy_opt_str (gemini_api_key env) = false.
Proof.
  unfold configured. destruct (gemini_api_key env) as [k|]; simpl; [|now right].
  destruct (Py.truthy_str k) eqn:T; [left; exists k; now split | now right].
Qed.

(** The name resolves, resolves to nothing, or the lookup fails. *)
Lemma lookup_cases (env : Env) (w : World) (name : string) :
  (exists c, resolves env w name c) \/ unknown env w name
  \/ exists e, db_fault env (Select_character_by_name name) = Some e.
Proof.
  unfold resolves, unknown.
  destruct (db_fault env (Select_character_by_name name)) as [e|]; [right; right; eauto|].
  destruct (find (has_name name) (characters (db w))) as [c|]; [left; eauto | right; left; auto].
Qed.

(** The call when the character is found and the history cannot be read. *)
Lemma chat_history_unreadable (env : Env) (w : World) (character_name user_input : string)
  (user_id : Z) (chat_id : option string) (key : string) (c : Character.t) (e : exn) :
  configured env key -> resolves env w character_name c ->
  db_fault env (Select_conversations_by_user user_id) = Some e ->
  chat_with_character env character_name user_input user_id chat_id w
  = (Ok (JStr ("An unexpected error occurred: " ++ str e)%string,
         Some (session_id env chat_id)),
     {| db := db w; session := session w;
        trace := Log ERROR ("Unexpected error in chat_with_character: " ++ str e)%string
                   :: Enter_chat_with_character character_name user_input user_id chat_id
                   :: trace w |}).
Proof.
  intros K R F. rewrite (chat_reaches_turn _ _ _ K R).
  erewrite turn_unreadable by exact F. reflexivity.
Qed.

(** What a call does to its caller and to the store, whatever the
    environment does. *)
Lemma chat_effect
  (env : Env) (w : World) (character_name user_input : string) (user_id : Z)
  (chat_id : option string) :
  let run := chat_with_character env character_name user_input user_id chat_id w in
  (exists reply id, fst run = Ok (reply, id))
  /\ characters (db (snd run)) = characters (db w)
  /\ session (snd run) = session w
  /\ (conversations (db (snd run)) = conversations (db w)
      \/ exists turn,
          conversations (db (snd run)) = conversations (db w) ++ [turn]
          /\ turn_of user_input user_id (session_id env chat_id) turn).
Proof.
  intros run. subst run.
  destruct (configured_or_not env) as [(key & K)|A].
  2:{ rewrite chat_without_credential by exact A. cbn [fst snd db session].
      repeat split; eauto. }
  destruct (lookup_cases env w character_name) as [(c & R)|[U|(e & F)]].
  3:{ rewrite (@chat_lookup_fails env w character_name user_input user_id chat_id key e K F). cbn [fst snd db session].
      repeat split; eauto. }
  2:{ rewrite (@chat_character_not_found env w character_name user_input user_id chat_id key K U). cbn [fst snd db session].
      repeat split; eauto. }
  destruct (db_fault env (Select_conversations_by_user user_id)) as [e|] eqn:H.
  { rewrite (@chat_history_unreadable env w character_name user_input user_id chat_id key c e K R H). cbn [fst snd db session].
    repeat split; eauto. }
  destruct (chat_outcome user_input chat_id K R H)
    as (reply & logs & E & _ & _ & C & S & G).
  split; [eauto|]. split; [exact C|]. split; [exact S|].
  destruct (generation_of _) as [text|]; [|left; apply G].
  destruct (bind_text env text) as [s|]; [|left; apply G].
  cbv zeta in G. destruct (db_fault env (Commit _ _)); [left; apply G|].
  right. eexists. split; [apply G|]. repeat split.
Qed.

(** X1: whatever the environment does, a call of [chat_with_character]
    returns a pair and raises nothing; it leaves the characters and the
    caller's session as they were; and the conversation table is either
    unchanged or longer by one row at its end, the turn of this call (its
    input, its user, its session identifier). *)
Theorem chat_never_raises_and_adds_at_most_one_turn
  (env : Env) (w : World) (character_name user_input : string) (user_id : Z)
  (chat_id : option string) :
  let run := chat_with_character env character_name user_input user_id chat_id w in
  (exists reply id, fst run = Ok (reply, id))
  /\ characters (db (snd run)) = characters (db w)
  /\ session (snd run) = session w
  /\ (conversations (db (snd run)) = conversations (db w)
      \/ exists turn,
          conversations (db (snd run)) = conversations (db w) ++ [turn]
          /\ turn_of user_input user_id (session_id env chat_id) turn).
Proof.
  intros run.
  destruct (chat_effect env w character_name user_input user_id chat_id)
    as (Returns & Characters & Session & Conversations).
  split; [exact Returns|]. split; [exact Characters|]. split; [exact Session|].
  exact Conversations.
Qed.

(** X2: when the lookup of the character fails, the call answers with the
    text of the failure and with the chat id exactly as it was passed (no
    identifier is minted, [None] stays [None]); the store is untouched and no
    request is sent. *)
Theorem chat_with_failing_lookup_returns_the_chat_id_unminted
  (env : Env) (w : World) (character_name user_input : string) (user_id : Z)
  (chat_id : option string) (key : string) (e : exn) :
  configured env key ->
  db_fault env (Select_character_by_name character_name) = Some e ->
  let run := chat_with_character env character_name user_input user_id chat_id w in
  fst run = Ok (JStr ("An unexpected error occurred: " ++ str e)%string, chat_id)
  /\ db (snd run) = db w
  /\ filter is_post (trace (snd run)) = filter is_post (trace w).
Proof.
  intros K F run. subst run.
  rewrite (@chat_lookup_fails env w character_name user_input user_id chat_id key e K F).
  repeat split.
Qed.

Lemma chat_with_failing_lookup_returns_the_chat_id_unminted_witness :
  let run := chat_with_character Demo.env_db_down "Chuck the Clown" "hi" 123 None
               Demo.seeded in
  fst run = Ok (JStr ("An unexpected error occurred: " ++ "connection lost")%string, None)
  /\ db (snd run) = db Demo.seeded
  /\ filter is_post (trace (snd run)) = filter is_post (trace Demo.seeded).
Proof.
  exact (@chat_with_failing_lookup_returns_the_chat_id_unminted Demo.env_db_down Demo.seeded
           "Chuck the Clown" "hi" 123 None "secret"
           (Exn (Other "OperationalError") "connection lost")
           (conj eq_refl eq_refl) eq_refl).
Defined.

(** ** The answers of the generator, case by case *)

Ltac enter_turn readable fresh :=
  unfold chat_turn, chat_unexpected_error,
    Conversation_query_filter_by_user_id_order_by_timestamp_all;
  unfold_monad; rewrite readable; unfold visible_conversations;
  rewrite fresh; cbn [added_conversations empty_session];
  rewrite app_nil_r;
  match goal with
  | |- context [order_by_timestamp (filter (of_user ?u) (conversations (db ?w)))] =>
      fold (history w u)
  end;
  match goal with
  | |- context [payload_of (full_prompt_of (Character.prompt_template ?c)
                              (context_prompt_of (history ?w ?u)) ?i)] =>
      fold (request_of w c u i)
  end;
  cbn [db session trace].

Section Answers.

Variables (env : Env) (c : Character.t) (user_input : string) (user_id : Z).
Variables (key sid : string) (w : World).
Hypothesis readable : history_readable env user_id.
Hypothesis fresh_session : session w = empty_session.

(** No answer to the request. *)
Lemma turn_no_answer (e : exn) :
  requests_post env (request_of w c user_id user_input) = Raise e ->
  (turn_run env c user_input user_id key sid w)
  = (Ok (JStr ("An unexpected error occurred: " ++ str e)%string, Some sid),
     {| db := db w; session := empty_session;
        trace := Log ERROR ("Unexpected error in chat_with_character: " ++ str e)%string
                   :: trace (requested w (request_of w c user_id user_input) key) |}).
Proof.
  intros P. unfold turn_run, requested. enter_turn readable fresh_session.
  rewrite P. reflexivity.
Qed.

(** A status other than 200 with a body that parses. *)
Lemma turn_bad_status (response : Response.t) (body : json) :
  requests_post env (request_of w c user_id user_input) = Ok response ->
  (Response.status_code response =? 200) = false ->
  Response.json response = Ok body ->
  (turn_run env c user_input user_id key sid w)
  = (Ok (JStr ("An error occurred while generating content: "
                 ++ Py.str_of_int (Response.status_code response) ++ " - "
                 ++ Response.text response)%string, Some sid),
     {| db := db w; session := empty_session;
        trace := Log ERROR ("Error from Gemini API: " ++ Json.repr body)%string
                   :: trace (requested w (request_of w c user_id user_input) key) |}).
Proof.
  intros P S J. unfold turn_run, requested. enter_turn readable fresh_session.
  rewrite P, S, J. reflexivity.
Qed.

(** A status other than 200 with a body that does not parse. *)
Lemma turn_bad_status_unparsed (response : Response.t) (e : exn) :
  requests_post env (request_of w c user_id user_input) = Ok response ->
  (Response.status_code response =? 200) = false ->
  Response.json response = Raise e ->
  (turn_run env c user_input user_id key sid w)
  = (Ok (JStr ("An unexpected error occurred: " ++ str e)%string, Some sid),
     {| db := db w; session := empty_session;
        trace := Log ERROR ("Unexpected error in chat_with_character: " ++ str e)%string
                   :: trace (requested w (request_of w c user_id user_input) key) |}).
Proof.
  intros P S J. unfold turn_run, requested. enter_turn readable fresh_session.
  rewrite P, S, J. reflexivity.
Qed.

(** Status 200 and an object without candidates. *)
Lemma turn_without_candidates (response : Response.t) (fields : list (string * json)) :
  requests_post env (request_of w c user_id user_input) = Ok response ->
  (Response.status_code response =? 200) = true ->
  Response.json response = Ok (JObj fields) ->
  match Json.lookup "candidates" fields with
  | Some candidates => Json.truthy candidates = false
  | None => True
  end ->
  (turn_run env c user_input user_id key sid w)
  = (Ok (JStr "An error occurred while generating content: Unexpected response format.",
         Some sid), (requested w (request_of w c user_id user_input) key)).
Proof.
  intros P S J N. unfold turn_run, requested. enter_turn readable fresh_session.
  rewrite P, S, J. unfold has_candidates. unfold_monad. cbn [Json.contains Json.getitem].
  destruct (Json.lookup "candidates" fields) as [cs|]; [rewrite N|]; reflexivity.
Qed.

(** Status 200 and a body with a text that the column takes. *)
Lemma turn_generated (response : Response.t) (body text : json) (s : string) :
  requests_post env (request_of w c user_id user_input) = Ok response ->
  (Response.status_code response =? 200) = true ->
  Response.json response = Ok body ->
  candidate_text body = Some text ->
  bind_text env text = Ok s ->
  let turn := new_turn env w c user_input s sid user_id in
  match db_fault env (Commit [] [turn]) with
  | None =>
      fst (turn_run env c user_input user_id key sid w) = Ok (text, Some sid)
      /\ conversations (db (snd (turn_run env c user_input user_id key sid w))) = conversations (db w) ++ [turn]
      /\ trace (snd (turn_run env c user_input user_id key sid w))
         = Log INFO ("Saved conversation with chat_id: " ++ sid)%string :: trace (requested w (request_of w c user_id user_input) key)
  | Some e =>
      fst (turn_run env c user_input user_id key sid w) = Ok (JStr ("An unexpected error occurred: " ++ str e)%string, Some sid)
      /\ conversations (db (snd (turn_run env c user_input user_id key sid w))) = conversations (db w)
      /\ trace (snd (turn_run env c user_input user_id key sid w))
         = Log ERROR ("Unexpected error in chat_with_character: " ++ str e)%string
             :: trace (requested w (request_of w c user_id user_input) key)
  end.
Proof.
  intros P S J T B turn. subst turn. unfold turn_run, requested.
  enter_turn readable fresh_session.
  rewrite P, S, J.
  match goal with
  | |- context [has_candidates body ?W] => rewrite (@has_candidates_of_text body text W T)
  end.
  match goal with
  | |- context [first_candidate_text body ?W] =>
      destruct (first_candidate_text_pure body W) as (r & Hr & Ht); rewrite Hr
  end.
  rewrite (proj2 (Ht text) T).
  unfold db_session_add_conversation, db_session_commit. rewrite B.
  cbn [db session trace added_characters added_conversations empty_session app
         conversation_id_seq].
  unfold new_turn.
  destruct (db_fault env _) as [e|];
    cbn [fst snd db session trace characters conversations];
    rewrite ?app_nil_r; repeat split; reflexivity.
Qed.

End Answers.

Lemma chat_is_a_turn (env : Env) (w : World) (character_name user_input : string)
  (user_id : Z) (chat_id : option string) (key : string) (c : Character.t) :
  configured env key -> resolves env w character_name c ->
  chat_with_character env character_name user_input user_id chat_id w
  = let out := turn_run env c user_input user_id key (session_id env chat_id)
                 (entered w character_name user_input user_id chat_id) in
    (fst out, {| db := db (snd out); session := session w; trace := trace (snd out) |}).
Proof.
  intros K R. apply (chat_reaches_turn _ _ _ K R).
Qed.

Lemma generation_inv (answer : result Response.t) (text : json) :
  generation_of answer = Generated text ->
  exists response body,
    answer = Ok response
    /\ (Response.status_code response =? 200) = true
    /\ Response.json response = Ok body
    /\ candidate_text body = Some text.
Proof.
  unfold generation_of. destruct answer as [response|e]; [|discriminate].
  destruct (Response.status_code response =? 200) eqn:S; [|discriminate].
  destruct (Response.json response) as [body|e] eqn:J; [|discriminate].
  destruct (candidate_text body) as [t|] eqn:T; [|discriminate].
  intros [= <-]. exists response, body. repeat split; assumption.
Qed.

(** X3: when the generator has answered with a text and the database then
    refuses the commit, the reply is lost: the call returns the text of the
    database's failure instead of the generated text, with the session
    identifier, and no row is persisted, although the request was sent. *)
Theorem refused_commit_loses_the_generated_reply
  (env : Env) (w : World) (character_name user_input : string) (user_id : Z)
  (chat_id : option string) (key : string) (c : Character.t) (s : string) (e : exn) :
  configured env key -> resolves env w character_name c -> history_readable env user_id ->
  generation_of (requests_post env (request_of w c user_id user_input)) = Generated (JStr s) ->
  db_fault env (Commit [] [new_turn env w c user_input s (session_id env chat_id) user_id])
  = Some e ->
  let run := chat_with_character env character_name user_input user_id chat_id w in
  fst run = Ok (JStr ("An unexpected error occurred: " ++ str e)%string,
                Some (session_id env chat_id))
  /\ conversations (db (snd run)) = conversations (db w)
  /\ In (Post gemini_api_url (request_of w c user_id user_input) key) (trace (snd run)).
Proof.
  intros K R H G F run. subst run.
  destruct (generation_inv _ G) as (response & body & P & S & J & T).
  rewrite (chat_is_a_turn _ _ _ K R). cbv zeta. cbn [fst snd db trace].
  assert (O := @turn_generated env c user_input user_id key (session_id env chat_id)
                 (entered w character_name user_input user_id chat_id) H eq_refl
                 response body (JStr s) s P S J T eq_refl).
  cbv zeta in O. unfold new_turn in O, F. cbn [entered db] in O. rewrite F in O.
  destruct O as (O1 & O2 & O3). rewrite O1, O2, O3.
  split; [reflexivity|]. split; [reflexivity|]. simpl. auto.
Qed.

Lemma refused_commit_loses_the_generated_reply_witness :
  let env := {| gemini_api_key := gemini_api_key Demo.env;
                urandom16 := urandom16 Demo.env;
                utcnow := utcnow Demo.env;
                requests_post := requests_post Demo.env;
                record_audio := record_audio Demo.env;
                recognize_google := recognize_google Demo.env;
                write_audiofile := write_audiofile Demo.env;
                db_fault := fun op =>
                  match op with
                  | Commit _ _ => Some (Exn (Other "OperationalError") "disk full")
                  | _ => None
                  end;
                adapt_text := adapt_text Demo.env |} in
  let run := chat_with_character env "Chuck the Clown" "Tell me a joke" 123 None
               Demo.seeded in
  fst run = Ok (JStr ("An unexpected error occurred: " ++ "disk full")%string,
                Some (session_id env None))
  /\ conversations (db (snd run)) = conversations (db Demo.seeded)
  /\ In (Post gemini_api_url (request_of Demo.seeded Demo.chuck 123 "Tell me a joke") "secret")
       (trace (snd run)).
Proof.
  intros env.
  exact (@refused_commit_loses_the_generated_reply env Demo.seeded "Chuck the Clown"
           "Tell me a joke" 123 None "secret" Demo.chuck
           "Why did the chicken cross the road?"
           (Exn (Other "OperationalError") "disk full")
           (conj eq_refl eq_refl) (conj eq_refl eq_refl) eq_refl eq_refl eq_refl).
Defined.

(** X4: a 200 answer whose text is [null] persists nothing: the column
    [bot_response] is [NOT NULL], the insert is refused, and the call returns
    an error text with the session identifier. *)
Theorem null_text_is_not_persisted
  (env : Env) (w : World) (character_name user_input : string) (user_id : Z)
  (chat_id : option string) (key : string) (c : Character.t) :
  configured env key -> resolves env w character_name c -> history_readable env user_id ->
  generation_of (requests_post env (request_of w c user_id user_input)) = Generated JNull ->
  let run := chat_with_character env character_name user_input user_id chat_id w in
  conversations (db (snd run)) = conversations (db w)
  /\ exists msg, fst run = Ok (JStr msg, Some (session_id env chat_id)) /\ error_text msg.
Proof.
  intros K R H G run.
  destruct (chat_outcome user_input chat_id K R H) as (reply & logs & E & _ & _ & _ & _ & O).
  rewrite G in O. cbn [bind_text] in O. destruct O as (O & msg & -> & M).
  split; [exact O|]. exists msg. split; [exact E | exact M].
Qed.

Lemma null_text_is_not_persisted_witness :
  let env := {| gemini_api_key := gemini_api_key Demo.env;
                urandom16 := urandom16 Demo.env;
                utcnow := utcnow Demo.env;
                requests_post := fun _ =>
                  Ok (Response.mk 200 "{...}"
                        (Ok (JObj [("candidates",
                                    JArr [JObj [("content",
                                                 JObj [("parts",
                                                        JArr [JObj [("text", JNull)]])])]])])));
                record_audio := record_audio Demo.env;
                recognize_google := recognize_google Demo.env;
                write_audiofile := write_audiofile Demo.env;
                db_fault := db_fault Demo.env;
                adapt_text := adapt_text Demo.env |} in
  let run := chat_with_character env "Chuck the Clown" "Tell me a joke" 123 None
               Demo.seeded in
  conversations (db (snd run)) = conversations (db Demo.seeded)
  /\ exists msg, fst run = Ok (JStr msg, Some (session_id env None)) /\ error_text msg.
Proof.
  intros env.
  exact (@null_text_is_not_persisted env Demo.seeded "Chuck the Clown" "Tell me a joke" 123
           None "secret" Demo.chuck (conj eq_refl eq_refl) (conj eq_refl eq_refl)
           eq_refl eq_refl).
Defined.

(** X5: a 200 answer whose body is an object without the key [candidates],
    or with an empty or otherwise false value under it, makes the call return
    exactly "An error occurred while generating content: Unexpected response
    format." with the session identifier; nothing is logged and nothing is
    persisted. *)
Theorem answer_without_candidates_is_an_unexpected_format
  (env : Env) (w : World) (character_name user_input : string) (user_id : Z)
  (chat_id : option string) (key : string) (c : Character.t)
  (response : Response.t) (fields : list (string * json)) :
  configured env key -> resolves env w character_name c -> history_readable env user_id ->
  requests_post env (request_of w c user_id user_input) = Ok response ->
  (Response.status_code response =? 200) = true ->
  Response.json response = Ok (JObj fields) ->
  match Json.lookup "candidates" fields with
  | Some candidates => Json.truthy candidates = false
  | None => True
  end ->
  chat_with_character env character_name user_input user_id chat_id w
  = (Ok (JStr "An error occurred while generating content: Unexpected response format.",
         Some (session_id env chat_id)),
     {| db := db w; session := session w;
        trace := Post gemini_api_url (request_of w c user_id user_input) key
                   :: Enter_chat_with_character character_name user_input user_id chat_id
                   :: trace w |}).
Proof.
  intros K R H P S J N.
  rewrite (chat_is_a_turn _ _ _ K R). cbv zeta.
  rewrite (@turn_without_candidates env c user_input user_id key (session_id env chat_id)
             (entered w character_name user_input user_id chat_id) H eq_refl
             response fields P S J N).
  reflexivity.
Qed.

Lemma answer_without_candidates_is_an_unexpected_format_witness :
  let env := {| gemini_api_key := gemini_api_key Demo.env;
                urandom16 := urandom16 Demo.env;
                utcnow := utcnow Demo.env;
                requests_post := fun _ =>
                  Ok (Response.mk 200 "{...}" (Ok (JObj [("candidates", JArr [])])));
                record_audio := record_audio Demo.env;
                recognize_google := recognize_google Demo.env;
                write_audiofile := write_audiofile Demo.env;
                db_fault := db_fault Demo.env;
                adapt_text := adapt_text Demo.env |} in
  chat_with_character env "Chuck the Clown" "Tell me a joke" 123 (Some "my-session")
    Demo.seeded
  = (Ok (JStr "An error occurred while generating content: Unexpected response format.",
         Some (session_id env (Some "my-session"))),
     {| db := db Demo.seeded; session := session Demo.seeded;
        trace := Post gemini_api_url (request_of Demo.seeded Demo.chuck 123 "Tell me a joke")
                   "secret"
                   :: Enter_chat_with_character "Chuck the Clown" "Tell me a joke" 123
                        (Some "my-session")
                   :: trace Demo.seeded |}).
Proof.
  intros env.
  exact (@answer_without_candidates_is_an_unexpected_format env Demo.seeded
           "Chuck the Clown" "Tell me a joke" 123 (Some "my-session") "secret" Demo.chuck
           (Response.mk 200 "{...}" (Ok (JObj [("candidates", JArr [])])))
           [("candidates", JArr [])]
           (conj eq_refl eq_refl) (conj eq_refl eq_refl) eq_refl eq_refl eq_refl eq_refl
           eq_refl).
Defined.

(** X6: for an answer with a status other than 200 nothing is persisted, and
    the text returned depends on the body: when the body parses as JSON the
    text is "An error occurred while generating content: {status} - {body
    text}"; when it does not, the statement that logs the parsed body raises
    and the text is "An unexpected error occurred: {decoding error}", in
    which the status code does not appear. *)
Theorem bad_status_reports_the_status_only_for_a_json_body
  (env : Env) (w : World) (character_name user_input : string) (user_id : Z)
  (chat_id : option string) (key : string) (c : Character.t) (response : Response.t) :
  configured env key -> resolves env w character_name c -> history_readable env user_id ->
  requests_post env (request_of w c user_id user_input) = Ok response ->
  (Response.status_code response =? 200) = false ->
  let run := chat_with_character env character_name user_input user_id chat_id w in
  db (snd run) = db w
  /\ match Response.json response with
     | Ok body =>
         fst run = Ok (JStr ("An error occurred while generating content: "
                               ++ Py.str_of_int (Response.status_code response) ++ " - "
                               ++ Response.text response)%string,
                       Some (session_id env chat_id))
     | Raise e =>
         fst run = Ok (JStr ("An unexpected error occurred: " ++ str e)%string,
                       Some (session_id env chat_id))
     end.
Proof.
  intros K R H P S run. subst run.
  rewrite (chat_is_a_turn _ _ _ K R). cbv zeta.
  destruct (Response.json response) as [body|e] eqn:J.
  - rewrite (@turn_bad_status env c user_input user_id key (session_id env chat_id)
               (entered w character_name user_input user_id chat_id) H eq_refl
               response body P S J).
    split; reflexivity.
  - rewrite (@turn_bad_status_unparsed env c user_input user_id key (session_id env chat_id)
               (entered w character_name user_input user_id chat_id) H eq_refl
               response e P S J).
    split; reflexivity.
Qed.

Lemma bad_status_reports_the_status_only_for_a_json_body_witness :
  let run := chat_with_character Demo.env_500 "Chuck the Clown" "Tell me a joke" 123
               (Some "my-session") Demo.seeded in
  db (snd run) = db Demo.seeded
  /\ fst run = Ok (JStr ("An error occurred while generating content: "
                           ++ Py.str_of_int 500 ++ " - " ++ "Internal error")%string,
                   Some (session_id Demo.env_500 (Some "my-session"))).
Proof.
  exact (@bad_status_reports_the_status_only_for_a_json_body Demo.env_500 Demo.seeded
           "Chuck the Clown" "Tell me a joke" 123 (Some "my-session") "secret" Demo.chuck
           (Response.mk 500 "Internal error" (Ok (JObj [("error", JStr "internal")])))
           (conj eq_refl eq_refl) (conj eq_refl eq_refl) eq_refl eq_refl eq_refl).
Defined.

(** ** The history of a user *)

Lemma get_chat_history_run (env : Env) (w : World) (user_id : Z) :
  get_chat_history env user_id w
  = match db_fault env (Select_conversations_by_user user_id) with
    | None => (Ok (history w user_id), w)
    | Some e =>
        (Ok [],
         {| db := db w; session := session w;
            trace := Log ERROR ("Error retrieving chat history: " ++ str e)%string
                       :: trace w |})
    end.
Proof.
  unfold get_chat_history, app_context,
    Conversation_query_filter_by_user_id_order_by_timestamp_all, visible_conversations.
  unfold_monad.
  destruct (db_fault env (Select_conversations_by_user user_id)); [reflexivity|].
  cbn [db session trace added_conversations empty_session]. rewrite app_nil_r.
  destruct w; reflexivity.
Qed.

(** X7: [get_chat_history] never raises and never changes the store.  When
    the query is answered it returns exactly the persisted turns of the user,
    in ascending order of timestamp; when the query fails it returns the
    empty list and logs the failure. *)
Theorem get_chat_history_lists_the_turns_of_the_user_or_nothing
  (env : Env) (w : World) (user_id : Z) :
  let run := get_chat_history env user_id w in
  db (snd run) = db w
  /\ session (snd run) = session w
  /\ match db_fault env (Select_conversations_by_user user_id) with
     | None =>
         exists rows,
           fst run = Ok rows
           /\ Permutation rows (filter (of_user user_id) (conversations (db w)))
           /\ StronglySorted earlier_or_same rows
           /\ trace (snd run) = trace w
     | Some e =>
         fst run = Ok []
         /\ trace (snd run)
            = Log ERROR ("Error retrieving chat history: " ++ str e)%string :: trace w
     end.
Proof.
  intros run. subst run. rewrite get_chat_history_run.
  destruct (db_fault env (Select_conversations_by_user user_id)) as [e|].
  - repeat split.
  - split; [reflexivity|]. split; [reflexivity|].
    exists (history w user_id). split; [reflexivity|].
    split; [apply order_by_timestamp_perm|].
    split; [apply order_by_timestamp_sorted | reflexivity].
Qed.

Lemma history_after_turn (w w' : World) (turn : Conversation.t) (user_id : Z) :
  conversations (db w') = conversations (db w) ++ [turn] ->
  Permutation (history w' user_id)
    (if of_user user_id turn then turn :: history w user_id else history w user_id).
Proof.
  intros C. unfold history. rewrite C, filter_app. cbn [filter].
  destruct (of_user user_id turn).
  - rewrite order_by_timestamp_perm, order_by_timestamp_perm.
    rewrite Permutation_app_comm. reflexivity.
  - rewrite app_nil_r. reflexivity.
Qed.

(** A turn of another user does not touch the list a user's history is
    computed from. *)
Lemma history_of_another_user (w w' : World) (turn : Conversation.t) (user_id : Z) :
  conversations (db w') = conversations (db w) ++ [turn] ->
  Conversation.user_id turn <> user_id ->
  history w' user_id = history w user_id.
Proof.
  intros C N. unfold history. rewrite C, filter_app. cbn [filter].
  replace (of_user user_id turn) with false; [now rewrite app_nil_r|].
  symmetry. unfold of_user. now apply Z.eqb_neq.
Qed.

(** X8: a call of [chat_with_character] for one user, whatever it does and
    however it ends, leaves the history of every other user as it was: the
    turns another user gets back, and the context of that user's next
    prompt, are the same list as before. *)
Theorem chat_leaves_the_history_of_other_users
  (env : Env) (w : World) (character_name user_input : string) (user_id : Z)
  (chat_id : option string) (other : Z) :
  other <> user_id ->
  history (snd (chat_with_character env character_name user_input user_id chat_id w)) other
  = history w other.
Proof.
  intros N.
  destruct (chat_effect env w character_name user_input user_id chat_id)
    as (_ & _ & _ & [Same|(turn & Added & _ & U & _)]).
  - unfold history. now rewrite Same.
  - eapply history_of_another_user; [exact Added|]. rewrite U. congruence.
Qed.

Lemma chat_leaves_the_history_of_other_users_witness :
  history (snd (chat_with_character Demo.env "Sarcastic Pirate" "Ahoy" 7 None Demo.talked)) 123
  = history Demo.talked 123.
Proof.
  apply (@chat_leaves_the_history_of_other_users Demo.env Demo.talked "Sarcastic Pirate"
           "Ahoy" 7 None 123).
  discriminate.
Defined.

(** A call that generates and commits stores its turn. *)
Lemma chat_stores_the_turn (env : Env) (w : World) (character_name user_input : string)
  (user_id : Z) (chat_id : option string) (key : string) (c : Character.t) (s : string) :
  configured env key -> resolves env w character_name c -> history_readable env user_id ->
  generation_of (requests_post env (request_of w c user_id user_input)) = Generated (JStr s) ->
  db_fault env (Commit [] [new_turn env w c user_input s (session_id env chat_id) user_id])
  = None ->
  let run := chat_with_character env character_name user_input user_id chat_id w in
  conversations (db (snd run))
  = conversations (db w) ++ [new_turn env w c user_input s (session_id env chat_id) user_id]
  /\ characters (db (snd run)) = characters (db w)
  /\ fst run = Ok (JStr s, Some (session_id env chat_id)).
Proof.
  intros K R H G F run.
  destruct (chat_outcome user_input chat_id K R H) as (reply & logs & E & _ & _ & C & _ & O).
  rewrite G in O. cbn [bind_text] in O. cbv zeta in O. rewrite F in O.
  destruct O as [O ->]. repeat split; assumption.
Qed.

(** X9: a turn that was generated and committed is what the history gives
    back: reading the history of the user afterwards returns the turn of the
    call together with the turns that were there before, and nothing else. *)
Theorem a_persisted_turn_is_in_the_history
  (env env' : Env) (w : World) (character_name user_input : string) (user_id : Z)
  (chat_id : option string) (key : string) (c : Character.t) (s : string) :
  configured env key -> resolves env w character_name c -> history_readable env user_id ->
  generation_of (requests_post env (request_of w c user_id user_input)) = Generated (JStr s) ->
  db_fault env (Commit [] [new_turn env w c user_input s (session_id env chat_id) user_id])
  = None ->
  history_readable env' user_id ->
  let after := snd (chat_with_character env character_name user_input user_id chat_id w) in
  let turn := new_turn env w c user_input s (session_id env chat_id) user_id in
  exists rows,
    fst (get_chat_history env' user_id after) = Ok rows
    /\ In turn rows
    /\ Permutation rows (turn :: history w user_id)
    /\ Conversation.bot_response turn = s.
Proof.
  intros K R H G F H' after turn.
  destruct (chat_stores_the_turn user_input chat_id K R H G F) as (C & _ & _).
  fold after in C. fold turn in C.
  assert (Permutation (history after user_id) (turn :: history w user_id)) as P.
  { rewrite (@history_after_turn w after turn user_id C). unfold of_user, turn, new_turn.
    cbn [Conversation.user_id]. now rewrite Z.eqb_refl. }
  exists (history after user_id). rewrite get_chat_history_run, H'.
  split; [reflexivity|]. split; [|split; [exact P | reflexivity]].
  eapply Permutation_in; [symmetry; exact P | now left].
Qed.

Lemma a_persisted_turn_is_in_the_history_witness :
  let after := snd (chat_with_character Demo.env "Chuck the Clown" "Tell me a joke" 123 None
                      Demo.seeded) in
  let turn := new_turn Demo.env Demo.seeded Demo.chuck "Tell me a joke"
                "Why did the chicken cross the road?" (session_id Demo.env None) 123 in
  exists rows,
    fst (get_chat_history Demo.env 123 after) = Ok rows
    /\ In turn rows
    /\ Permutation rows (turn :: history Demo.seeded 123)
    /\ Conversation.bot_response turn = "Why did the chicken cross the road?".
Proof.
  exact (@a_persisted_turn_is_in_the_history Demo.env Demo.env Demo.seeded "Chuck the Clown"
           "Tell me a joke" 123 None "secret" Demo.chuck
           "Why did the chicken cross the road?"
           (conj eq_refl eq_refl) (conj eq_refl eq_refl) eq_refl eq_refl eq_refl eq_refl).
Defined.

(** X10: the engine remembers: after a turn of a user was generated and
    committed, the next call for that user, with whatever character and in
    whatever session, sends one request whose prompt holds the exchange
    "User: {input}\nBot: {reply}" of that turn in its context. *)
Theorem the_next_prompt_holds_the_previous_exchange
  (env env' : Env) (w : World) (character_name user_input : string) (user_id : Z)
  (chat_id : option string) (key : string) (c : Character.t) (s : string)
  (character_name' user_input' : string) (chat_id' : option string) (key' : string)
  (c' : Character.t) :
  configured env key -> resolves env w character_name c -> history_readable env user_id ->
  generation_of (requests_post env (request_of w c user_id user_input)) = Generated (JStr s) ->
  db_fault env (Commit [] [new_turn env w c user_input s (session_id env chat_id) user_id])
  = None ->
  let after := snd (chat_with_character env character_name user_input user_id chat_id w) in
  configured env' key' -> resolves env' after character_name' c' ->
  history_readable env' user_id ->
  exists events before behind,
    trace (snd (chat_with_character env' character_name' user_input' user_id chat_id' after))
    = events ++ trace after
    /\ filter is_post events
       = [Post gemini_api_url
            (payload_of
               (full_prompt_of (Character.prompt_template c')
                  (before ++ ("User: " ++ user_input ++ Py.nl ++ "Bot: " ++ s) ++ behind)%string
                  user_input'))
            key'].
Proof.
  intros K R H G F after K' R' H'.
  destruct (chat_stores_the_turn user_input chat_id K R H G F) as (C & _ & _).
  fold after in C.
  destruct (chat_sends_one_request user_input' chat_id' K' R' H') as (events & T & P).
  assert (In (new_turn env w c user_input s (session_id env chat_id) user_id)
            (history after user_id)) as I.
  { apply history_has_turn; [|reflexivity]. rewrite C. apply in_or_app. right. now left. }
  destruct (join_holds_part " " _ _ (in_map turn_text _ _ I)) as (before & behind & J).
  exists events, before, behind. split; [exact T|].
  rewrite P. unfold request_of, context_prompt_of. rewrite J. reflexivity.
Qed.

Lemma the_next_prompt_holds_the_previous_exchange_witness :
  let after := snd (chat_with_character Demo.env "Chuck the Clown" "Tell me a joke" 123 None
                      Demo.seeded) in
  exists events before behind,
    trace (snd (chat_with_character Demo.env "Sarcastic Pirate" "Ahoy" 123 (Some "later")
                  after))
    = events ++ trace after
    /\ filter is_post events
       = [Post gemini_api_url
            (payload_of
               (full_prompt_of
                  "You are a Sarcastic Pirate, ready to share your tales of adventure. Use pirate slang, be witty, sarcastic, and mention your love for treasure and the sea."
                  (before ++ ("User: " ++ "Tell me a joke" ++ Py.nl ++ "Bot: "
                                ++ "Why did the chicken cross the road?") ++ behind)%string
                  "Ahoy"))
            "secret"].
Proof.
  exact (@the_next_prompt_holds_the_previous_exchange Demo.env Demo.env Demo.seeded
           "Chuck the Clown" "Tell me a joke" 123 None "secret" Demo.chuck
           "Why did the chicken cross the road?" "Sarcastic Pirate" "Ahoy" (Some "later")
           "secret"
           (Character.mk 2 "Sarcastic Pirate"
              "A pirate with a sharp tongue and a love for treasure."
              "You are a Sarcastic Pirate, ready to share your tales of adventure. Use pirate slang, be witty, sarcastic, and mention your love for treasure and the sea.")
           (conj eq_refl eq_refl) (conj eq_refl eq_refl) eq_refl eq_refl eq_refl
           (conj eq_refl eq_refl) (conj eq_refl eq_refl) eq_refl).
Defined.

(** X11: the history tab.  For a user that is not signed in, the user id 0
    included, [load_chat_history] shows the one row ("Error", "Please sign in
    ...") and does not touch the store or the log.  For any other user it
    shows one row per persisted turn of the user, keyed by the turn's id, in
    ascending order of timestamp; and when the query fails it shows no row at
    all, which is also what a user without turns sees. *)
Theorem load_chat_history_rows
  (env : Env) (str_of_datetime : Z -> string) (w : World) (user_id : option Z) :
  let run := load_chat_history env str_of_datetime user_id w in
  (Py.truthy_opt_int user_id = false -> run = (Ok history_placeholder, w))
  /\ (forall uid, user_id = Some uid -> uid <> 0 ->
      match db_fault env (Select_conversations_by_user uid) with
      | None =>
          exists rows,
            fst run = Ok rows
            /\ map fst rows = map (fun conv => JInt (Conversation.id conv)) (history w uid)
            /\ List.length rows
               = List.length (filter (of_user uid) (conversations (db w)))
      | Some _ => fst run = Ok []
      end).
Proof.
  intros run. subst run. split.
  - destruct user_id as [uid|]; [|reflexivity]. simpl.
    intros Z0. apply negb_false_iff in Z0. unfold load_chat_history. now rewrite Z0.
  - intros uid -> N. apply Z.eqb_neq in N.
    unfold load_chat_history. rewrite N. unfold bind, ret.
    rewrite get_chat_history_run.
    destruct (db_fault env (Select_conversations_by_user uid)); [reflexivity|].
    eexists. split; [reflexivity|]. split.
    + rewrite map_map. reflexivity.
    + rewrite length_map. unfold history.
      apply Permutation_length, order_by_timestamp_perm.
Qed.

Lemma load_chat_history_rows_witness :
  let run := load_chat_history Demo.env Py.str_of_int (Some 0) Demo.talked in
  let shown := load_chat_history Demo.env Py.str_of_int (Some 123) Demo.talked in
  run = (Ok history_placeholder, Demo.talked)
  /\ exists rows,
      fst shown = Ok rows
      /\ map fst rows = map (fun conv => JInt (Conversation.id conv)) (history Demo.talked 123)
      /\ List.length rows
         = List.length (filter (of_user 123) (conversations (db Demo.talked))).
Proof.
  split.
  - exact (proj1 (@load_chat_history_rows Demo.env Py.str_of_int Demo.talked (Some 0))
             eq_refl).
  - apply (proj2 (@load_chat_history_rows Demo.env Py.str_of_int Demo.talked (Some 123))
             123 eq_refl).
    discriminate.
Defined.

(** ** The chat handler, path by path *)



(** X13: not every failure becomes a message.  When the audio file cannot
    be read, or the recogniser raises an exception that is neither
    [UnknownValueError] nor [RequestError], the exception leaves
    [speech_to_text] and [handle_chat] uncaught: the handler returns no
    outputs, and the store and the engine are not reached. *)
Theorem unreadable_audio_escapes_the_handler
  (env : Env) (w : World) (character_name user_input video_file : option string)
  (user_id : option Z) (chat_messages : list message) (current_chat_id : option string)
  (file : string) (e : exn) :
  Py.truthy_opt_int user_id = true ->
  Py.truthy_opt_str character_name = true ->
  Py.truthy_str file = true ->
  record_audio env file = Some e
  \/ (record_audio env file = None /\ recognize_google env file = Raise e
      /\ class_of e <> UnknownValueError /\ class_of e <> RequestError) ->
  let run := handle_chat env character_name user_input (Some file) video_file user_id
               chat_messages current_chat_id w in
  fst run = Raise e
  /\ db (snd run) = db w
  /\ filter of_engine (trace (snd run)) = filter of_engine (trace w).
Proof.
  intros U C T F.
  destruct user_id as [uid|]; [|discriminate].
  destruct character_name as [name|]; [|discriminate].
  simpl in U, C. apply negb_true_iff in U.
  cbv zeta. unfold handle_chat, handle_audio, speech_to_text.
  rewrite U, C, T. unfold_monad.
  destruct F as [R|(R & G & N1 & N2)]; rewrite R; [repeat split|].
  rewrite G. destruct (class_of e); try contradiction; repeat split.
Qed.

Lemma unreadable_audio_escapes_the_handler_witness :
  let env := {| gemini_api_key := gemini_api_key Demo.env;
                urandom16 := urandom16 Demo.env;
                utcnow := utcnow Demo.env;
                requests_post := requests_post Demo.env;
                record_audio := fun _ => Some (Exn (Other "FileNotFoundError") "no such file");
                recognize_google := recognize_google Demo.env;
                write_audiofile := write_audiofile Demo.env;
                db_fault := db_fault Demo.env;
                adapt_text := adapt_text Demo.env |} in
  let run := handle_chat env (Some "Chuck the Clown") (Some "hello") (Some "voice.wav") None
               (Some 123) [] None Demo.seeded in
  fst run = Raise (Exn (Other "FileNotFoundError") "no such file")
  /\ db (snd run) = db Demo.seeded
  /\ filter of_engine (trace (snd run)) = filter of_engine (trace Demo.seeded).
Proof.
  intros env.
  exact (@unreadable_audio_escapes_the_handler env Demo.seeded
           (Some "Chuck the Clown") (Some "hello") None (Some 123) [] None "voice.wav"
           (Exn (Other "FileNotFoundError") "no such file")
           eq_refl eq_refl eq_refl (or_introl eq_refl)).
Defined.












(** ** Signing in *)












(** ** The character registry under every environment *)

Lemma known_false_find (w : World) (name : string) :
  known w name = false <-> find (has_name name) (characters (db w)) = None.
Proof.
  unfold known. rewrite existsb_find.
  destruct (find (has_name name) (characters (db w))); split; congruence.
Qed.

Lemma known_false_not_in (w : World) (name : string) :
  known w name = false -> ~ In name (map Character.name (characters (db w))).
Proof.
  unfold known. intros K I. apply in_map_iff in I. destruct I as (c & E & I).
  assert (existsb (has_name name) (characters (db w)) = true) as T.
  { apply existsb_exists. exists c. split; [exact I|].
    unfold has_name. rewrite E. apply String.eqb_refl. }
  congruence.
Qed.

(** What [add_character] does, whatever the environment does: it returns a
    text, and the characters are as before or one row longer, the row of the
    call, whose name was not in the table. *)
Lemma add_character_effect (env : Env) (w : World) (name description prompt_template : string) :
  let run := add_character env name description prompt_template w in
  let row := Character.mk (character_id_seq (db w)) name description prompt_template in
  (exists msg, fst run = Ok msg)
  /\ conversations (db (snd run)) = conversations (db w)
  /\ session (snd run) = session w
  /\ (characters (db (snd run)) = characters (db w)
      \/ (known w name = false /\ characters (db (snd run)) = characters (db w) ++ [row])).
Proof.
  cbv zeta.
  unfold add_character, app_context, Character_query_filter_by_name_first,
    db_session_add_character, db_session_commit, db_session_rollback, visible_characters.
  unfold_monad.
  destruct (db_fault env (Select_character_by_name name)) as [e|];
    [cbn [fst snd db session conversations characters]; repeat split; eauto|].
  cbn [db session trace added_characters empty_session]. rewrite app_nil_r.
  destruct (find (has_name name) (characters (db w))) as [found|] eqn:F;
    [cbn [fst snd db session conversations characters]; repeat split; eauto|].
  cbn [db session trace added_characters added_conversations empty_session app
         characters conversations character_id_seq conversation_id_seq].
  destruct (db_fault env (Commit _ _)) as [e|];
    cbn [fst snd db session conversations characters]; rewrite ?app_nil_r;
    (split; [eauto|]); (split; [reflexivity|]); (split; [reflexivity|]);
    [left; reflexivity|].
  right. split; [now apply known_false_find | reflexivity].
Qed.

(** X20: when the database raises during [add_character], on the lookup of
    the name or on the commit of the new row, the function returns "An error
    occurred while adding the character: {failure}" and raises nothing; the
    insert is rolled back, so neither table has changed. *)
Theorem add_character_failure_changes_no_table
  (env : Env) (w : World) (name description prompt_template : string) (e : exn) :
  db_fault env (Select_character_by_name name) = Some e
  \/ (db_fault env (Select_character_by_name name) = None
      /\ known w name = false
      /\ db_fault env
           (Commit [Character.mk (character_id_seq (db w)) name description prompt_template]
              []) = Some e) ->
  let run := add_character env name description prompt_template w in
  fst run = Ok ("An error occurred while adding the character: " ++ str e)%string
  /\ characters (db (snd run)) = characters (db w)
  /\ conversations (db (snd run)) = conversations (db w)
  /\ session (snd run) = session w
  /\ trace (snd run) = Log ERROR ("Error adding character: " ++ str e)%string :: trace w.
Proof.
  intros F. cbv zeta.
  unfold add_character, app_context, Character_query_filter_by_name_first,
    db_session_add_character, db_session_commit, db_session_rollback, visible_characters.
  unfold_monad.
  destruct F as [Q|(Q & K & C)]; rewrite Q; [repeat split|].
  apply known_false_find in K.
  cbn [db session trace added_characters empty_session]. rewrite app_nil_r, K.
  cbn [db session trace added_characters added_conversations empty_session app
         characters conversations character_id_seq conversation_id_seq].
  rewrite C. repeat split.
Qed.

Lemma add_character_failure_changes_no_table_witness :
  let run := add_character Demo.env_db_down "Captain Hook" "A pirate" "You are a pirate."
               Demo.seeded in
  fst run = Ok ("An error occurred while adding the character: " ++ "connection lost")%string
  /\ characters (db (snd run)) = characters (db Demo.seeded)
  /\ conversations (db (snd run)) = conversations (db Demo.seeded)
  /\ session (snd run) = session Demo.seeded
  /\ trace (snd run)
     = Log ERROR ("Error adding character: " ++ "connection lost")%string :: trace Demo.seeded.
Proof.
  exact (@add_character_failure_changes_no_table Demo.env_db_down Demo.seeded "Captain Hook"
           "A pirate" "You are a pirate." (Exn (Other "OperationalError") "connection lost")
           (or_introl eq_refl)).
Defined.

Lemma get_existing_characters_run (env : Env) (w : World) :
  get_existing_characters env w
  = match db_fault env Select_characters with
    | None => (Ok (map listed (characters (db w))), w)
    | Some e =>
        (Ok [("Error retrieving characters", str e)],
         {| db := db w; session := session w;
            trace := Log ERROR ("Error retrieving characters: " ++ str e)%string
                       :: trace w |})
    end.
Proof.
  unfold get_existing_characters, app_context, Character_query_all, visible_characters.
  unfold_monad.
  destruct (db_fault env Select_characters); [reflexivity|].
  cbn [db session trace added_characters empty_session]. rewrite app_nil_r.
  destruct w; reflexivity.
Qed.

(** X21: [get_existing_characters] never raises and never changes the
    store; when the query is answered it returns one entry (name,
    description) per row of the table, in the order of the table, and logs
    nothing. *)
Theorem get_existing_characters_lists_the_table
  (env : Env) (w : World) :
  let run := get_existing_characters env w in
  (exists entries, fst run = Ok entries)
  /\ db (snd run) = db w
  /\ session (snd run) = session w
  /\ (db_fault env Select_characters = None ->
      run = (Ok (map (fun c => (Character.name c, Character.description c))
                   (characters (db w))), w)).
Proof.
  cbv zeta. rewrite get_existing_characters_run.
  destruct (db_fault env Select_characters) as [e|].
  - split; [eexists; reflexivity|]. split; [reflexivity|]. split; [reflexivity|].
    discriminate.
  - split; [eexists; reflexivity|]. split; [reflexivity|]. split; reflexivity.
Qed.

(** An added character stands at the end of the table. *)
Lemma add_character_appends (env : Env) (w : World) (name description prompt_template : string) :
  db_fault env (Select_character_by_name name) = None ->
  known w name = false ->
  let row := Character.mk (character_id_seq (db w)) name description prompt_template in
  db_fault env (Commit [row] []) = None ->
  characters (db (snd (add_character env name description prompt_template w)))
  = characters (db w) ++ [row].
Proof.
  intros Q K row C.
  unfold add_character, app_context, Character_query_filter_by_name_first,
    db_session_add_character, db_session_commit, db_session_rollback, visible_characters.
  unfold_monad. apply known_false_find in K. rewrite Q.
  cbn [db session trace added_characters empty_session]. rewrite app_nil_r, K.
  cbn [db session trace added_characters added_conversations empty_session app
         characters conversations character_id_seq conversation_id_seq].
  fold row. rewrite C. reflexivity.
Qed.

(** X22: a character that was added is listed: after [add_character] has
    committed a new name, [get_existing_characters] returns the entries it
    returned before, followed by the entry (name, description) of the new
    character. *)
Theorem an_added_character_is_listed
  (env env' : Env) (w : World) (name description prompt_template : string) :
  db_fault env (Select_character_by_name name) = None ->
  known w name = false ->
  db_fault env
    (Commit [Character.mk (character_id_seq (db w)) name description prompt_template] [])
  = None ->
  db_fault env' Select_characters = None ->
  let after := snd (add_character env name description prompt_template w) in
  exists before,
    fst (get_existing_characters env' w) = Ok before
    /\ fst (get_existing_characters env' after) = Ok (before ++ [(name, description)]).
Proof.
  intros Q K C L after.
  exists (map listed (characters (db w))).
  rewrite !get_existing_characters_run, L. split; [reflexivity|].
  unfold after. cbn [fst]. rewrite (@add_character_appends env w name description prompt_template Q K C), map_app.
  reflexivity.
Qed.

Lemma an_added_character_is_listed_witness :
  let after := snd (add_character Demo.env "Captain Hook" "A pirate" "You are a pirate."
                      Demo.seeded) in
  exists before,
    fst (get_existing_characters Demo.env Demo.seeded) = Ok before
    /\ fst (get_existing_characters Demo.env after) = Ok (before ++ [("Captain Hook", "A pirate")]).
Proof.
  exact (@an_added_character_is_listed Demo.env Demo.env Demo.seeded "Captain Hook"
           "A pirate" "You are a pirate." eq_refl eq_refl eq_refl eq_refl).
Defined.

(** X23: the prompt template given to [add_character] is what the
    generator is prompted with: after a new name was committed, a call of
    [chat_with_character] for that name sends one request, and its prompt
    starts with the template of the call of [add_character], followed by a
    line feed. *)
Theorem an_added_character_prompts_with_its_template
  (env env' : Env) (w : World) (name description prompt_template : string)
  (user_input : string) (user_id : Z) (chat_id : option string) (key : string) :
  db_fault env (Select_character_by_name name) = None ->
  known w name = false ->
  db_fault env
    (Commit [Character.mk (character_id_seq (db w)) name description prompt_template] [])
  = None ->
  let after := snd (add_character env name description prompt_template w) in
  configured env' key ->
  db_fault env' (Select_character_by_name name) = None ->
  history_readable env' user_id ->
  exists events rest,
    trace (snd (chat_with_character env' name user_input user_id chat_id after))
    = events ++ trace after
    /\ filter is_post events
       = [Post gemini_api_url (payload_of (prompt_template ++ Py.nl ++ rest)%string) key].
Proof.
  intros Q K C after K' Q' H'.
  set (row := Character.mk (character_id_seq (db w)) name description prompt_template).
  assert (resolves env' after name row) as R.
  { split; [exact Q'|]. unfold after.
    rewrite (@add_character_appends env w name description prompt_template Q K C), find_app.
    apply known_false_find in K. rewrite K. simpl.
    unfold has_name. cbn [Character.name]. now rewrite String.eqb_refl. }
  destruct (chat_sends_one_request user_input chat_id K' R H') as (events & T & P).
  exists events. eexists. split; [exact T|]. rewrite P. reflexivity.
Qed.

Lemma an_added_character_prompts_with_its_template_witness :
  let after := snd (add_character Demo.env "Captain Hook" "A pirate" "You are a pirate."
                      Demo.seeded) in
  exists events rest,
    trace (snd (chat_with_character Demo.env "Captain Hook" "Ahoy" 123 None after))
    = events ++ trace after
    /\ filter is_post events
       = [Post gemini_api_url (payload_of ("You are a pirate." ++ Py.nl ++ rest)%string)
            "secret"].
Proof.
  exact (@an_added_character_prompts_with_its_template Demo.env Demo.env Demo.seeded
           "Captain Hook" "A pirate" "You are a pirate." "Ahoy" 123 None "secret"
           eq_refl eq_refl eq_refl (conj eq_refl eq_refl) eq_refl eq_refl).
Defined.

(** ** Seeding under every environment *)

Ltac seed_simpl :=
  cbn [fst snd db session trace added_characters added_conversations empty_session
         characters conversations character_id_seq conversation_id_seq app negb
         find has_name Character.name String.eqb Ascii.eqb Bool.eqb rows_of];
  rewrite ?find_app, ?app_nil_r.

Ltac seed_lookup_failed p e :=
  left; exists p, e;
  split; [simpl; tauto|]; split; [assumption|]; split; reflexivity.

(** What seeding does, whatever the environment does.  Either the lookup of
    a persona fails, the exception leaves the function and nothing is
    inserted; or the lookups are answered and the rows of the missing
    personas are committed, unless the commit is refused, which is logged
    and leaves the table as it was. *)
Lemma seeding_outcome (env : Env) (w : World) :
  let run := add_predefined_characters env w in
  conversations (db (snd run)) = conversations (db w)
  /\ session (snd run) = session w
  /\ ((exists p e,
          In p predefined_characters
          /\ db_fault env (Select_character_by_name (persona_name p)) = Some e
          /\ fst run = Raise e
          /\ characters (db (snd run)) = characters (db w))
      \/ ((forall p, In p predefined_characters ->
                     db_fault env (Select_character_by_name (persona_name p)) = None)
          /\ fst run = Ok tt
          /\ match db_fault env (Commit (seed_rows w) []) with
             | None => characters (db (snd run)) = characters (db w) ++ seed_rows w
             | Some e =>
                 characters (db (snd run)) = characters (db w)
                 /\ In (Log ERROR ("Error adding predefined characters: " ++ str e)%string)
                      (trace (snd run))
             end)).
Proof.
  cbv zeta. unfold seed_rows, known.
  unfold add_predefined_characters, app_context, predefined_characters,
    for_each, Character_query_filter_by_name_first, db_session_add_character,
    db_session_commit, db_session_rollback, visible_characters.
  unfold_monad. cbn [filter persona_name fst]. rewrite !existsb_find.
  cbn [db session trace added_characters empty_session]. rewrite app_nil_r.
  destruct (db_fault env (Select_character_by_name "Chuck the Clown")) as [e1|] eqn:Q1.
  { seed_simpl. split; [reflexivity|]. split; [reflexivity|].
    seed_lookup_failed
      ("Chuck the Clown", "A funny clown who tells jokes and entertains.",
       "You are Chuck the Clown, always ready with a joke and entertainment. Be upbeat, silly, and include jokes in your responses.")
      e1. }
  destruct (find (has_name "Chuck the Clown") (characters (db w))) eqn:F1; seed_simpl;
    (destruct (db_fault env (Select_character_by_name "Sarcastic Pirate")) as [e2|] eqn:Q2;
     [ seed_simpl; split; [reflexivity|]; split; [reflexivity|];
       seed_lookup_failed
         ("Sarcastic Pirate", "A pirate with a sharp tongue and a love for treasure.",
          "You are a Sarcastic Pirate, ready to share your tales of adventure. Use pirate slang, be witty, sarcastic, and mention your love for treasure and the sea.")
         e2 | ]);
    seed_simpl;
    (destruct (find (has_name "Sarcastic Pirate") (characters (db w))) eqn:F2; seed_simpl);
    (destruct (db_fault env (Select_character_by_name "Professor Sage")) as [e3|] eqn:Q3;
     [ seed_simpl; split; [reflexivity|]; split; [reflexivity|];
       seed_lookup_failed
         ("Professor Sage", "A wise professor knowledgeable about many subjects.",
          "You are Professor Sage, sharing wisdom and knowledge. Be scholarly, thoughtful, and provide educational information in your responses.")
         e3 | ]);
    seed_simpl;
    (destruct (find (has_name "Professor Sage") (characters (db w))) eqn:F3; seed_simpl);
    (destruct (db_fault env (Commit _ _)) as [e|] eqn:C; seed_simpl);
    (split; [reflexivity|]); (split; [reflexivity|]); right;
    (split; [intros p [<-|[<-|[<-|[]]]]; assumption|]);
    (split; [reflexivity|]);
    first [ reflexivity | split; [reflexivity | simpl; tauto] ].
Qed.

Lemma names_of_rows (personas : list (string * string * string)) :
  forall next, map Character.name (rows_of next personas) = map persona_name personas.
Proof.
  induction personas as [|[[n d] t] rest IH]; intros next; simpl; [reflexivity|].
  now rewrite IH.
Qed.

Lemma personas_of_rows (personas : list (string * string * string)) :
  forall next, map persona (rows_of next personas) = personas.
Proof.
  induction personas as [|[[n d] t] rest IH]; intros next; simpl; [reflexivity|].
  now rewrite IH.
Qed.

(** Whatever personas are missing, their names differ from each other. *)
Lemma missing_names_unique (test : string * string * string -> bool) :
  NoDup (map persona_name (filter test predefined_characters)).
Proof.
  unfold predefined_characters. cbn [filter].
  repeat match goal with
         | |- context [if test ?p then _ else _] => destruct (test p)
         end;
    cbn [map persona_name fst];
    repeat constructor; simpl; intuition discriminate.
Qed.

Lemma seed_rows_names_unique (w : World) :
  names_unique w ->
  NoDup (map Character.name (characters (db w) ++ seed_rows w)).
Proof.
  intros U. rewrite map_app. unfold seed_rows. rewrite names_of_rows.
  apply NoDup_app; [exact U | apply missing_names_unique|].
  intros n I M. apply in_map_iff in M. destruct M as (p & <- & M).
  apply filter_In in M. destruct M as (_ & M). apply negb_true_iff in M.
  exact (known_false_not_in _ _ M I).
Qed.

(** X24: the registry keeps the names of the characters pairwise
    different: when they are so before, they are so after [add_character]
    and after [add_predefined_characters], whatever was asked for and
    whatever the database did in between. *)
Theorem registry_keeps_the_names_unique
  (env : Env) (w : World) (name description prompt_template : string) :
  names_unique w ->
  names_unique (snd (add_character env name description prompt_template w))
  /\ names_unique (snd (add_predefined_characters env w)).
Proof.
  intros U. split.
  - destruct (add_character_effect env w name description prompt_template)
      as (_ & _ & _ & [Same|(K & Added)]); unfold names_unique.
    + now rewrite Same.
    + rewrite Added, map_app. apply NoDup_app; [exact U | repeat constructor; simpl; tauto|].
      intros n I [<-|[]]. exact (known_false_not_in _ _ K I).
  - destruct (seeding_outcome env w) as (_ & _ & [(p & e & _ & _ & _ & Same)|(_ & _ & O)]);
      unfold names_unique.
    + now rewrite Same.
    + destruct (db_fault env (Commit (seed_rows w) [])).
      * destruct O as [Same _]. now rewrite Same.
      * rewrite O. now apply seed_rows_names_unique.
Qed.

Lemma registry_keeps_the_names_unique_witness :
  names_unique (snd (add_character Demo.env "Captain Hook" "A pirate" "You are a pirate."
                       Demo.seeded))
  /\ names_unique (snd (add_predefined_characters Demo.env Demo.seeded)).
Proof.
  apply (@registry_keeps_the_names_unique Demo.env Demo.seeded "Captain Hook" "A pirate"
           "You are a pirate.").
  unfold names_unique. simpl. repeat constructor; simpl; intuition discriminate.
Defined.

(** X25: the two ways seeding fails.  A commit the database refuses is
    caught: the function returns normally, logs "Error adding predefined
    characters: {failure}" and leaves the table as it was.  A lookup the
    database fails is not caught: the exception leaves
    [add_predefined_characters], and the table is as it was. *)
Theorem seeding_failures
  (env : Env) (w : World) :
  let run := add_predefined_characters env w in
  (forall e,
      (forall p, In p predefined_characters ->
                 db_fault env (Select_character_by_name (persona_name p)) = None) ->
      db_fault env (Commit (seed_rows w) []) = Some e ->
      fst run = Ok tt
      /\ characters (db (snd run)) = characters (db w)
      /\ In (Log ERROR ("Error adding predefined characters: " ++ str e)%string)
           (trace (snd run)))
  /\ (forall p e,
         In p predefined_characters ->
         db_fault env (Select_character_by_name (persona_name p)) = Some e ->
         exists raised,
           fst run = Raise raised
           /\ characters (db (snd run)) = characters (db w)
           /\ conversations (db (snd run)) = conversations (db w)).
Proof.
  intros run.
  destruct (seeding_outcome env w) as (Conv & _ & [(p & e & I & Q & R & Same)|(A & R & O)]);
    fold run in Conv, R; try fold run in Same; try fold run in O; split.
  - intros e' A. rewrite (A p I) in Q. discriminate.
  - intros p' e' _ _. exists e. repeat split; assumption.
  - intros e _ C. rewrite C in O. destruct O as [Same L]. repeat split; assumption.
  - intros p e I Q. rewrite (A p I) in Q. discriminate.
Qed.

Lemma seeding_failures_witness :
  (let env := {| gemini_api_key := gemini_api_key Demo.env;
                 urandom16 := urandom16 Demo.env;
                 utcnow := utcnow Demo.env;
                 requests_post := requests_post Demo.env;
                 record_audio := record_audio Demo.env;
                 recognize_google := recognize_google Demo.env;
                 write_audiofile := write_audiofile Demo.env;
                 db_fault := fun op =>
                   match op with
                   | Commit _ _ => Some (Exn (Other "OperationalError") "disk full")
                   | _ => None
                   end;
                 adapt_text := adapt_text Demo.env |} in
   let run := add_predefined_characters env Demo.empty in
   fst run = Ok tt
   /\ characters (db (snd run)) = characters (db Demo.empty)
   /\ In (Log ERROR ("Error adding predefined characters: " ++ "disk full")%string)
        (trace (snd run)))
  /\ (let run := add_predefined_characters Demo.env_db_down Demo.empty in
      exists raised,
        fst run = Raise raised
        /\ characters (db (snd run)) = characters (db Demo.empty)
        /\ conversations (db (snd run)) = conversations (db Demo.empty)).
Proof.
  split.
  - intros env.
    apply (proj1 (@seeding_failures env Demo.empty)
             (Exn (Other "OperationalError") "disk full")).
    + intros p I. reflexivity.
    + reflexivity.
  - apply (proj2 (@seeding_failures Demo.env_db_down Demo.empty)
             ("Chuck the Clown", "A funny clown who tells jokes and entertains.",
              "You are Chuck the Clown, always ready with a joke and entertainment. Be upbeat, silly, and include jokes in your responses.")
             (Exn (Other "OperationalError") "connection lost")).
    + simpl. tauto.
    + reflexivity.
Defined.

(** ** The start of the interface *)

Lemma find_of_name (l : list Character.t) (name : string) :
  In name (map Character.name l) -> exists c, find (has_name name) l = Some c.
Proof.
  intros I. destruct (find (has_name name) l) as [c|] eqn:F; [eauto|].
  apply in_map_iff in I. destruct I as (c & E & I).
  assert (has_name name c = false) as N by exact (find_none _ _ F c I).
  unfold has_name in N. rewrite E, String.eqb_refl in N. discriminate.
Qed.

(** The start of the interface when seeding returns. *)
Lemma create_interface_run (env : Env) (w : World) :
  let seeded := snd (add_predefined_characters env
                       {| db := db w; session := empty_session; trace := trace w |}) in
  let started := {| db := db seeded; session := session w; trace := trace seeded |} in
  fst (add_predefined_characters env
         {| db := db w; session := empty_session; trace := trace w |}) = Ok tt ->
  create_interface env w
  = match db_fault env Select_characters with
    | None =>
        (Ok (map listed (characters (db started)),
             map Character.name (characters (db started))), started)
    | Some e =>
        (Ok ([("Error retrieving characters", str e)], ["Error retrieving characters"]),
         {| db := db started; session := session w;
            trace := Log ERROR ("Error retrieving characters: " ++ str e)%string
                       :: Log ERROR ("Error retrieving characters: " ++ str e)%string
                       :: trace started |})
    end.
Proof.
  intros seeded started S. unfold create_interface, app_context.
  unfold bind at 1 2. unfold seeded in started.
  destruct (add_predefined_characters env _) as [r w1]. cbn [fst snd] in *. subst r.
  fold started. rewrite get_existing_characters_run.
  destruct (db_fault env Select_characters) as [e|] eqn:L.
  - unfold bind, ret. rewrite get_existing_characters_run, L. reflexivity.
  - unfold bind, ret. rewrite get_existing_characters_run, L.
    rewrite map_map. reflexivity.
Qed.

(** X26: when the database answers, the interface starts with every
    character in the dropdown: the choices are the names of the table after
    seeding, the three personas are among them, and every choice resolves to
    a character, so that a choice of the dropdown is not answered with
    "Character not found." as long as the table is read. *)
Theorem the_dropdown_starts_with_known_characters
  (env : Env) (w : World) :
  db_answers env ->
  let run := create_interface env w in
  exists table choices,
    fst run = Ok (table, choices)
    /\ choices = map Character.name (characters (db (snd run)))
    /\ table = map (fun c => (Character.name c, Character.description c))
                 (characters (db (snd run)))
    /\ (forall p, In p predefined_characters -> In (persona_name p) choices)
    /\ (forall name, In name choices -> exists c, resolves env (snd run) name c).
Proof.
  intros A run. subst run.
  set (w0 := {| db := db w; session := empty_session; trace := trace w |}).
  destruct (seeding w0 A) as (rows & S & C & R & _).
  rewrite (create_interface_run env w S), (A Select_characters). fold w0.
  cbn [fst snd db].
  eexists _, _. split; [reflexivity|]. split; [reflexivity|]. split; [reflexivity|].
  split.
  - intros p I.
    assert (known (snd (add_predefined_characters env w0)) (persona_name p) = true) as K
      by exact (@seeded_known w0 _ rows C R p I).
    unfold known in K. apply existsb_exists in K. destruct K as (c & I' & N).
    apply in_map_iff. exists c. split; [|exact I'].
    unfold has_name in N. now apply String.eqb_eq in N.
  - intros name I. destruct (find_of_name _ _ I) as (c & F).
    exists c. split; [apply A | exact F].
Qed.

Lemma the_dropdown_starts_with_known_characters_witness :
  let run := create_interface Demo.env Demo.empty in
  exists table choices,
    fst run = Ok (table, choices)
    /\ choices = map Character.name (characters (db (snd run)))
    /\ table = map (fun c => (Character.name c, Character.description c))
                 (characters (db (snd run)))
    /\ (forall p, In p predefined_characters -> In (persona_name p) choices)
    /\ (forall name, In name choices -> exists c, resolves Demo.env (snd run) name c).
Proof.
  apply (@the_dropdown_starts_with_known_characters Demo.env Demo.empty).
  intros op. reflexivity.
Defined.

(** A name that is neither in the table nor a persona's is not in the table
    after seeding. *)
Lemma find_after_seeding (w : World) (name : string) :
  known w name = false ->
  ~ In name (map persona_name predefined_characters) ->
  find (has_name name) (characters (db w) ++ seed_rows w) = None.
Proof.
  intros K N. rewrite find_app. apply known_false_find in K. rewrite K.
  destruct (find (has_name name) (seed_rows w)) as [c|] eqn:F; [|reflexivity].
  apply find_some in F. destruct F as (I & E). exfalso. apply N.
  unfold has_name in E. apply String.eqb_eq in E. subst name.
  assert (In (Character.name c) (map Character.name (seed_rows w))) as M
    by now apply in_map.
  unfold seed_rows in M. rewrite names_of_rows in M.
  apply in_map_iff in M. destruct M as (p & <- & M). apply filter_In in M.
  apply in_map. tauto.
Qed.

(** X27: when the database fails the listing of the characters while the
    interface starts, the table of the admin tab shows the placeholder entry
    and the dropdown of the chat tab offers "Error retrieving characters" as
    its only choice.  Unless a character has that name, the choice is no
    character: a chat with it is answered "Character not found.". *)
Theorem a_failed_listing_puts_the_placeholder_in_the_dropdown
  (env : Env) (w : World) (e : exn) :
  db_fault env Select_characters = Some e ->
  (forall op, op <> Select_characters -> db_fault env op = None) ->
  let run := create_interface env w in
  fst run = Ok ([("Error retrieving characters", str e)], ["Error retrieving characters"])
  /\ (known w "Error retrieving characters" = false ->
      forall env' key user_input user_id chat_id,
        configured env' key ->
        db_fault env' (Select_character_by_name "Error retrieving characters") = None ->
        fst (chat_with_character env' "Error retrieving characters" user_input user_id
               chat_id (snd run))
        = Ok (JStr "Character not found.", None)).
Proof.
  intros L A run. subst run.
  set (w0 := {| db := db w; session := empty_session; trace := trace w |}).
  destruct (seeding_outcome env w0) as (_ & _ & [(p & x & _ & Q & _)|(_ & S & O)]).
  { rewrite A in Q by discriminate. discriminate. }
  rewrite A in O by discriminate.
  rewrite (create_interface_run env w S), L. fold w0. cbn [fst snd db].
  split; [reflexivity|].
  intros K env' key user_input user_id chat_id K' Q'.
  erewrite chat_character_not_found; [reflexivity | exact K' |].
  split; [exact Q'|]. cbn [db]. rewrite O.
  apply (find_after_seeding w0 K). simpl. intuition discriminate.
Qed.

Lemma a_failed_listing_puts_the_placeholder_in_the_dropdown_witness :
  let env := {| gemini_api_key := gemini_api_key Demo.env;
                urandom16 := urandom16 Demo.env;
                utcnow := utcnow Demo.env;
                requests_post := requests_post Demo.env;
                record_audio := record_audio Demo.env;
                recognize_google := recognize_google Demo.env;
                write_audiofile := write_audiofile Demo.env;
                db_fault := fun op =>
                  match op with
                  | Select_characters => Some (Exn (Other "OperationalError") "timeout")
                  | _ => None
                  end;
                adapt_text := adapt_text Demo.env |} in
  let run := create_interface env Demo.empty in
  fst run = Ok ([("Error retrieving characters", "timeout")], ["Error retrieving characters"])
  /\ (known Demo.empty "Error retrieving characters" = false ->
      forall env' key user_input user_id chat_id,
        configured env' key ->
        db_fault env' (Select_character_by_name "Error retrieving characters") = None ->
        fst (chat_with_character env' "Error retrieving characters" user_input user_id
               chat_id (snd run))
        = Ok (JStr "Character not found.", None)).
Proof.
  intros env.
  apply (@a_failed_listing_puts_the_placeholder_in_the_dropdown env Demo.empty
           (Exn (Other "OperationalError") "timeout")).
  - reflexivity.
  - intros op N. destruct op; try reflexivity. contradiction.
Defined.
